(** * Provider abstraction and response normalisation of the weekly planner

    A shallow embedding of [services/geminiService.ts] (prompt builder, the
    two backend adapters, the Gemini probe and the dispatcher), of the
    verification handlers, the provider switch and the model drop-down of
    [components/SettingsModal.tsx] and of the generation handler of
    [App.tsx], with the properties the specification states about them
    and further properties of the code.

    JavaScript strings are sequences of UTF-16 code units, thrown values are
    records with a name and a message, and the runtime the code calls into
    (fetch, the Gemini SDK, Intl, the clock, the process environment) is a
    record [World] that every operation takes as a parameter.  An operation
    yields the list of outside calls it made together with its outcome. *)

From Stdlib Require Import List NArith ZArith Bool Lia String Ascii.
From Stdlib Require Import DecimalString DecimalN Sorting.Sorted Sorting.Permutation.
Import ListNotations.

Set Warnings "-register-all".

(* ================================================================== *)
(** ** JavaScript strings *)
(* ================================================================== *)

Module Js.

(** A string is its sequence of UTF-16 code units. *)
Definition jsstring := list N.

(** Literals are written as Rocq strings (UTF-8 in the file) and decoded
    to code units by [js]. *)
Fixpoint utf8_points (need : nat) (acc : N) (bs : list N) : list N :=
  match bs with
  | [] => []
  | b :: r =>
      match need with
      | O =>
          if (b <? 128)%N then b :: utf8_points 0 0 r
          else if (b <? 224)%N then utf8_points 1 (b - 192) r
          else if (b <? 240)%N then utf8_points 2 (b - 224) r
          else utf8_points 3 (b - 240) r
      | S k =>
          let acc' := (acc * 64 + (b - 128))%N in
          match k with
          | O => acc' :: utf8_points 0 0 r
          | S _ => utf8_points k acc' r
          end
      end
  end.

Definition utf16_units (p : N) : list N :=
  if (p <? 65536)%N then [p]
  else [(55296 + (p - 65536) / 1024)%N; (56320 + (p - 65536) mod 1024)%N].

Definition js (s : string) : jsstring :=
  flat_map utf16_units
    (utf8_points 0 0 (map N_of_ascii (list_ascii_of_string s))).

(** The characters that cannot be written inside a literal. *)
Definition dq : jsstring := [34%N].     (* the double quote *)
Definition nl : jsstring := [10%N].     (* line feed *)

(** [!s] for a string: only the empty string is falsy. *)
Definition falsy_string (s : jsstring) : bool :=
  match s with [] => true | _ :: _ => false end.

Definition streq (a b : jsstring) : bool :=
  if list_eq_dec N.eq_dec a b then true else false.

(** [s.startsWith(p)] *)
Fixpoint startsWith (s p : jsstring) {struct p} : bool :=
  match p, s with
  | [], _ => true
  | _ :: _, [] => false
  | y :: p', x :: s' => (x =? y)%N && startsWith s' p'
  end.

(** [s.endsWith(p)] *)
Definition endsWith (s p : jsstring) : bool :=
  startsWith (rev s) (rev p).

(** [s.includes(x)] *)
Fixpoint includes (s x : jsstring) : bool :=
  startsWith s x ||
  match s with
  | [] => false
  | _ :: r => includes r x
  end.

(** [s.slice(0, -1)] *)
Definition slice_0_m1 (s : jsstring) : jsstring :=
  firstn (List.length s - 1) s.

(** [s.replace(/^p/, '')] for a literal pattern [p]. *)
Definition replace_prefix (p s : jsstring) : jsstring :=
  if startsWith s p then skipn (List.length p) s else s.

(** [s.replace(/p$/, '')] for a literal pattern [p]: without the [m] flag
    [$] matches at the end of the input only, so the single possible match
    is the last [length p] code units. *)
Definition replace_suffix (p s : jsstring) : jsstring :=
  if endsWith s p then firstn (List.length s - List.length p) s else s.

(** WhiteSpace and LineTerminator code points, the ones [trim] removes. *)
Definition isWhiteSpace (c : N) : bool :=
  ((9 <=? c) && (c <=? 13) || (c =? 32) || (c =? 160) || (c =? 5760)
   || (8192 <=? c) && (c <=? 8202) || (c =? 8232) || (c =? 8233)
   || (c =? 8239) || (c =? 8287) || (c =? 12288) || (c =? 65279))%N.

Fixpoint trimStart (s : jsstring) : jsstring :=
  match s with
  | [] => []
  | c :: r => if isWhiteSpace c then trimStart r else s
  end.

Definition trimEnd (s : jsstring) : jsstring :=
  rev (trimStart (rev s)).

(** [s.trim()] *)
Definition trim (s : jsstring) : jsstring :=
  trimEnd (trimStart s).

(** [String(n)] for a non-negative integer: its decimal digits. *)
Definition of_N (n : N) : jsstring :=
  js (NilEmpty.string_of_uint (N.to_uint n)).

(** [n.toString()] for an integer. *)
Definition of_Z (z : Z) : jsstring :=
  if (z <? 0)%Z then js "-" ++ of_N (Z.to_N (- z)) else of_N (Z.to_N z).

End Js.

Import Js.

(* ================================================================== *)
(** ** JSON values and [JSON.parse] *)
(* ================================================================== *)

Module Json.

(** A JSON number is kept exact, as [(-1)^neg * mant * 10^exp10]; the
    double JavaScript rounds it to is only needed to tell zero from
    non-zero (see [number_is_zero]). *)
Record number := mkNumber { num_neg : bool; num_mant : N; num_exp10 : Z }.

(** The values [JSON.parse] builds.  An object keeps its members in
    source order, duplicates included; a later member of the same name
    shadows an earlier one (see [member]). *)
Inductive json :=
| JNull
| JBool (b : bool)
| JNumber (n : number)
| JString (s : jsstring)
| JArray (items : list json)
| JObject (members : list (jsstring * json)).

(** *** The parser

    [JSON.parse] accepts the grammar of ECMA-404.  It is written here as
    a pushdown automaton that reads one code unit at a time, so that it
    is total and needs no fuel. *)

Definition is_json_ws (c : N) : bool :=
  ((c =? 9) || (c =? 10) || (c =? 13) || (c =? 32))%N.

Definition digit (c : N) : option N :=
  if ((48 <=? c) && (c <=? 57))%N then Some (c - 48)%N else None.

Definition hexval (c : N) : option N :=
  if ((48 <=? c) && (c <=? 57))%N then Some (c - 48)%N
  else if ((97 <=? c) && (c <=? 102))%N then Some (c - 87)%N
  else if ((65 <=? c) && (c <=? 70))%N then Some (c - 55)%N
  else None.

(** Where the automaton is inside a number literal. *)
Inductive numst :=
| NMinus    (* after the sign, a digit must follow *)
| NZero     (* the integer part is 0 *)
| NInt      (* inside an integer part 1-9 ... *)
| NDot      (* after the point, a digit must follow *)
| NFrac     (* inside the fraction *)
| NE        (* after e or E *)
| NESign    (* after the sign of the exponent *)
| NExp.     (* inside the exponent *)

Record numacc := mkNumacc {
  a_neg : bool; a_mant : N; a_frac : N; a_eneg : bool; a_exp : N }.

Definition num_complete (ns : numst) : bool :=
  match ns with
  | NZero | NInt | NFrac | NExp => true
  | NMinus | NDot | NE | NESign => false
  end.

Definition num_value (a : numacc) : number :=
  mkNumber (a_neg a) (a_mant a)
    ((if a_eneg a then - Z.of_N (a_exp a) else Z.of_N (a_exp a))
     - Z.of_N (a_frac a))%Z.

Definition push_int (a : numacc) (d : N) : numacc :=
  mkNumacc (a_neg a) (a_mant a * 10 + d) (a_frac a) (a_eneg a) (a_exp a).
Definition push_frac (a : numacc) (d : N) : numacc :=
  mkNumacc (a_neg a) (a_mant a * 10 + d) (a_frac a + 1) (a_eneg a) (a_exp a).
Definition push_exp (a : numacc) (d : N) : numacc :=
  mkNumacc (a_neg a) (a_mant a) (a_frac a) (a_eneg a) (a_exp a * 10 + d).
Definition neg_exp (a : numacc) : numacc :=
  mkNumacc (a_neg a) (a_mant a) (a_frac a) true (a_exp a).

Definition is_e (c : N) : bool := ((c =? 101) || (c =? 69))%N.

(** One more code unit of a number literal; [None] when [c] cannot
    continue it. *)
Definition num_step (a : numacc) (ns : numst) (c : N)
  : option (numacc * numst) :=
  match ns with
  | NMinus =>
      match digit c with
      | Some d => if (d =? 0)%N then Some (a, NZero) else Some (push_int a d, NInt)
      | None => None
      end
  | NZero =>
      if (c =? 46)%N then Some (a, NDot)
      else if is_e c then Some (a, NE) else None
  | NInt =>
      match digit c with
      | Some d => Some (push_int a d, NInt)
      | None =>
          if (c =? 46)%N then Some (a, NDot)
          else if is_e c then Some (a, NE) else None
      end
  | NDot =>
      match digit c with
      | Some d => Some (push_frac a d, NFrac)
      | None => None
      end
  | NFrac =>
      match digit c with
      | Some d => Some (push_frac a d, NFrac)
      | None => if is_e c then Some (a, NE) else None
      end
  | NE =>
      match digit c with
      | Some d => Some (push_exp a d, NExp)
      | None =>
          if (c =? 43)%N then Some (a, NESign)
          else if (c =? 45)%N then Some (neg_exp a, NESign) else None
      end
  | NESign | NExp =>
      match digit c with
      | Some d => Some (push_exp a d, NExp)
      | None => None
      end
  end.

(** Where the automaton is inside a string literal. *)
Inductive strst :=
| SPlain
| SEsc                          (* after a backslash *)
| SHex (more : nat) (acc : N).  (* inside \uXXXX, [S more] digits to come *)

Definition escape (c : N) : option N :=
  if (c =? 34)%N then Some 34%N            (* quote *)
  else if (c =? 92)%N then Some 92%N       (* backslash *)
  else if (c =? 47)%N then Some 47%N       (* solidus *)
  else if (c =? 98)%N then Some 8%N        (* b: backspace *)
  else if (c =? 102)%N then Some 12%N      (* f: form feed *)
  else if (c =? 110)%N then Some 10%N      (* n: line feed *)
  else if (c =? 114)%N then Some 13%N      (* r: carriage return *)
  else if (c =? 116)%N then Some 9%N       (* t: tab *)
  else None.

Definition members := list (jsstring * json).

Inductive mode :=
| MValue                                   (* a value must start *)
| MArrStart                                (* after [ *)
| MArrAfter (acc : list json)              (* after an element *)
| MObjStart                                (* after { *)
| MObjKey (acc : members)                  (* after , in an object *)
| MObjColon (acc : members) (key : jsstring)
| MObjAfter (acc : members)                (* after a member *)
| MStr (key : option members) (buf : jsstring) (st : strst)
| MNum (a : numacc) (ns : numst)
| MLit (next : N) (rest : jsstring) (v : json)
| MDone (v : json)                         (* the text is complete *)
| MErr.

(** The enclosing containers, innermost first; each with what it holds
    so far, newest first. *)
Inductive frame :=
| FArr (acc : list json)
| FObj (acc : members) (key : jsstring).

Definition state := (mode * list frame)%type.

(** A value [v] is complete: it goes into the innermost container. *)
Definition complete (v : json) (stack : list frame) : state :=
  match stack with
  | [] => (MDone v, [])
  | FArr acc :: st => (MArrAfter (v :: acc), st)
  | FObj acc k :: st => (MObjAfter ((k, v) :: acc), st)
  end.

Definition num0 (neg : bool) (m : N) : numacc := mkNumacc neg m 0 false 0.

(** The first code unit [c] of a value. *)
Definition start_value (c : N) (stack : list frame) : state :=
  if (c =? 123)%N then (MObjStart, stack)
  else if (c =? 91)%N then (MArrStart, stack)
  else if (c =? 34)%N then (MStr None [] SPlain, stack)
  else if (c =? 45)%N then (MNum (num0 true 0) NMinus, stack)
  else if (c =? 116)%N then (MLit 114 (js "ue") (JBool true), stack)
  else if (c =? 102)%N then (MLit 97 (js "lse") (JBool false), stack)
  else if (c =? 110)%N then (MLit 117 (js "ll") JNull, stack)
  else match digit c with
       | Some d => if (d =? 0)%N then (MNum (num0 false 0) NZero, stack)
                   else (MNum (num0 false d) NInt, stack)
       | None => (MErr, stack)
       end.

(** A code unit read after a complete value. *)
Definition step_after (s : state) (c : N) : state :=
  let (m, stack) := s in
  match m with
  | MArrAfter acc =>
      if is_json_ws c then s
      else if (c =? 44)%N then (MValue, FArr acc :: stack)
      else if (c =? 93)%N then complete (JArray (rev acc)) stack
      else (MErr, stack)
  | MObjAfter acc =>
      if is_json_ws c then s
      else if (c =? 44)%N then (MObjKey acc, stack)
      else if (c =? 125)%N then complete (JObject (rev acc)) stack
      else (MErr, stack)
  | MDone v => if is_json_ws c then s else (MErr, stack)
  | _ => (MErr, stack)
  end.

Definition step (s : state) (c : N) : state :=
  let (m, stack) := s in
  match m with
  | MValue => if is_json_ws c then s else start_value c stack
  | MArrStart =>
      if is_json_ws c then s
      else if (c =? 93)%N then complete (JArray []) stack
      else start_value c (FArr [] :: stack)
  | MObjStart =>
      if is_json_ws c then s
      else if (c =? 125)%N then complete (JObject []) stack
      else if (c =? 34)%N then (MStr (Some []) [] SPlain, stack)
      else (MErr, stack)
  | MObjKey acc =>
      if is_json_ws c then s
      else if (c =? 34)%N then (MStr (Some acc) [] SPlain, stack)
      else (MErr, stack)
  | MObjColon acc k =>
      if is_json_ws c then s
      else if (c =? 58)%N then (MValue, FObj acc k :: stack)
      else (MErr, stack)
  | MArrAfter _ | MObjAfter _ | MDone _ => step_after s c
  | MStr key buf SPlain =>
      if (c =? 34)%N then
        match key with
        | None => complete (JString (rev buf)) stack
        | Some acc => (MObjColon acc (rev buf), stack)
        end
      else if (c =? 92)%N then (MStr key buf SEsc, stack)
      else if (c <? 32)%N then (MErr, stack)
      else (MStr key (c :: buf) SPlain, stack)
  | MStr key buf SEsc =>
      if (c =? 117)%N then (MStr key buf (SHex 3 0), stack)
      else match escape c with
           | Some x => (MStr key (x :: buf) SPlain, stack)
           | None => (MErr, stack)
           end
  | MStr key buf (SHex more acc) =>
      match hexval c with
      | Some h =>
          let acc' := (acc * 16 + h)%N in
          match more with
          | O => (MStr key (acc' :: buf) SPlain, stack)
          | S k => (MStr key buf (SHex k acc'), stack)
          end
      | None => (MErr, stack)
      end
  | MNum a ns =>
      match num_step a ns c with
      | Some (a', ns') => (MNum a' ns', stack)
      | None =>
          if num_complete ns
          then step_after (complete (JNumber (num_value a)) stack) c
          else (MErr, stack)
      end
  | MLit next rest v =>
      if (c =? next)%N then
        match rest with
        | [] => complete v stack
        | x :: r => (MLit x r v, stack)
        end
      else (MErr, stack)
  | MErr => s
  end.

(** The end of the text. *)
Definition finish (s : state) : option json :=
  match s with
  | (MDone v, []) => Some v
  | (MNum a ns, []) =>
      if num_complete ns then Some (JNumber (num_value a)) else None
  | _ => None
  end.

Definition run (s : state) (text : jsstring) : state :=
  fold_left step text s.

(** [JSON.parse(text)]: [None] stands for the SyntaxError it throws. *)
Definition JSON_parse (text : jsstring) : option json :=
  finish (run (MValue, []) text).

(** The states the automaton reaches: the rest of a literal word holds
    letters only. *)
Definition lit_ok (q : state) : bool :=
  match fst q with
  | MLit next rest _ => forallb (fun c => negb (isWhiteSpace c)) (next :: rest)
  | _ => true
  end.

(** The same states, more closely: the rest of a literal word holds
    small letters only. *)
Definition lit_lower (q : state) : bool :=
  match fst q with
  | MLit next rest _ =>
      forallb (fun c => (97 <=? c)%N && (c <=? 122)%N) (next :: rest)
  | _ => true
  end.

(** *** Reading parsed values *)

(** The own property [name] of an object: the last member of that name. *)
Fixpoint member (name : jsstring) (ms : members) : option json :=
  match ms with
  | [] => None
  | (k, v) :: r =>
      match member name r with
      | Some w => Some w
      | None => if streq k name then Some v else None
      end
  end.

(** A JavaScript value read out of parsed JSON: [None] is [undefined]. *)
Definition jsval := option json.

(** [v.name] for a value that is neither [null] nor [undefined].  None of
    the names the program reads ([choices], [message], [content], [data],
    [id]) is defined on a prototype, so only objects have them. *)
Definition prop (v : json) (name : jsstring) : jsval :=
  match v with
  | JObject ms => member name ms
  | _ => None
  end.

(** [v[0]] for a value that is neither [null] nor [undefined]. *)
Definition index0 (v : json) : jsval :=
  match v with
  | JArray items => nth_error items 0
  | JString (c :: _) => Some (JString [c])
  | JObject ms => member (js "0") ms
  | _ => None
  end.

(** [v?.name] and [v?.[0]]: [undefined] for [null] and [undefined]. *)
Definition opt_chain (f : json -> jsval) (v : jsval) : jsval :=
  match v with
  | None | Some JNull => None
  | Some w => f w
  end.

(** A number literal denotes a double that is zero when its mantissa is
    zero or its magnitude is at most 2^-1075, half the least subnormal. *)
Definition number_is_zero (n : number) : bool :=
  (num_mant n =? 0)%N ||
  ((num_exp10 n <? 0)%Z &&
   (Z.of_N (num_mant n) * 2 ^ 1075 <=? 10 ^ (- num_exp10 n))%Z).

(** [!v] *)
Definition falsy (v : jsval) : bool :=
  match v with
  | None | Some JNull | Some (JBool false) => true
  | Some (JNumber n) => number_is_zero n
  | Some (JString s) => falsy_string s
  | _ => false
  end.

End Json.

Import Json.

(* ================================================================== *)
(** ** Thrown values, the runtime, and operations with effects *)
(* ================================================================== *)

(** What [throw] and a rejected promise carry: the constructor's name and
    the message. *)
Record exn := mkExn { exn_name : jsstring; exn_message : jsstring }.

(** [new Error(message)] *)
Definition Error (message : jsstring) : exn := mkExn (js "Error") message.

(** The schema type of the Gemini SDK, as far as [geminiResponseSchema]
    uses it. *)
Inductive Schema :=
| TypeSTRING (description : option jsstring)
| TypeARRAY (items : Schema)
| TypeOBJECT (properties : list (jsstring * Schema)) (required : list jsstring).

Record GenerateConfig := mkGenerateConfig {
  responseMimeType : jsstring;
  responseSchema : Schema;
  cfg_systemInstruction : jsstring }.

(** One call [new GoogleGenAI({apiKey}).models.generateContent(...)]. *)
Record SdkRequest := mkSdkRequest {
  sdk_apiKey : jsstring;
  sdk_model : jsstring;
  sdk_contents : jsstring;
  sdk_config : option GenerateConfig }.

(** One call [fetch(url, {method, headers, body})].  The body is kept as
    the value handed to [JSON.stringify]. *)
Record Request := mkRequest {
  req_url : jsstring;
  req_method : jsstring;
  req_headers : list (jsstring * jsstring);
  req_body : option json }.

Record Response := mkResponse {
  status : N;
  statusText : jsstring;
  body : jsstring }.

(** [response.ok]: the status is in the range 200-299. *)
Definition ok (r : Response) : bool :=
  ((200 <=? status r) && (status r <=? 299))%N.

(** Everything outside the program.  [fetch] and [generateContent] either
    reject with a thrown value or resolve; [generateContent] resolves to
    the [text] of the response, which may be [undefined].  A pending
    [fetch] that the ten-second timer aborts is a [fetch] that rejects. *)
Record World := mkWorld {
  fetch : Request -> exn + Response;
  generateContent : SdkRequest -> exn + option jsstring;
  process_env_API_KEY : option jsstring;
  Date_now : Z;
  (** [new Intl.DateTimeFormat('zh-CN', {timeZone, weekday: 'long', year:
      'numeric', month: 'numeric', day: 'numeric'})]: [None] when the
      constructor throws a RangeError for the time zone. *)
  Intl_DateTimeFormat : jsstring -> option (Z -> jsstring);
  (** [a.localeCompare(b)], [b] converted to a string by the engine. *)
  localeCompare : jsstring -> jsval -> Z;
  (** The messages of the errors the engine itself raises. *)
  syntax_error_message : jsstring -> jsstring;
  type_error_message : jsstring -> jsstring;
  range_error_message : jsstring -> jsstring }.

(** What an operation does outside itself, in order. *)
Inductive event :=
| EvFetch (r : Request)
| EvGenerateContent (r : SdkRequest)
| EvConsoleError (label : jsstring) (e : exn).

Definition is_network (e : event) : bool :=
  match e with
  | EvFetch _ | EvGenerateContent _ => true
  | EvConsoleError _ _ => false
  end.

(** The network calls among the events of a run. *)
Definition network_calls (t : list event) : list event := filter is_network t.

(** An asynchronous operation: the events it caused, and either the value
    it throws (the promise rejects) or its result. *)
Definition Eff (A : Type) : Type := (list event * (exn + A))%type.

Definition ret {A} (x : A) : Eff A := ([], inr x).
Definition throw {A} (e : exn) : Eff A := ([], inl e).
Definition emit (ev : event) : Eff unit := ([ev], inr tt).

Definition bind {A B} (m : Eff A) (k : A -> Eff B) : Eff B :=
  match m with
  | (t, inl e) => (t, inl e)
  | (t, inr x) => let (t', r) := k x in (t ++ t', r)
  end.

(** [try { m } catch (e) { h e }] *)
Definition try_catch {A} (m : Eff A) (h : exn -> Eff A) : Eff A :=
  match m with
  | (t, inl e) => let (t', r) := h e in (t ++ t', r)
  | (t, inr x) => (t, inr x)
  end.

Notation "x <- m ;; k" := (bind m (fun x => k))
  (at level 61, m at next level, right associativity).
Notation "m ;;; k" := (bind m (fun _ => k))
  (at level 61, right associativity).

Definition trace {A} (m : Eff A) : list event := fst m.
Definition outcome {A} (m : Eff A) : exn + A := snd m.

Section Runtime.

Variable W : World.

Definition SyntaxError (text : jsstring) : exn :=
  mkExn (js "SyntaxError") (syntax_error_message W text).
Definition TypeError (what : jsstring) : exn :=
  mkExn (js "TypeError") (type_error_message W what).
Definition RangeError (timeZone : jsstring) : exn :=
  mkExn (js "RangeError") (range_error_message W timeZone).

(** [JSON.parse(text)] with its exception. *)
Definition JSON_parse_or_throw (text : jsstring) : Eff json :=
  match JSON_parse text with
  | Some v => ret v
  | None => throw (SyntaxError text)
  end.

(** [await fetch(...)] *)
Definition do_fetch (r : Request) : Eff Response :=
  (emit (EvFetch r)) ;;; ([], fetch W r).

(** [await response.json()] *)
Definition response_json (r : Response) : Eff json :=
  JSON_parse_or_throw (body r).

(** [await ai.models.generateContent(...)] *)
Definition do_generateContent (r : SdkRequest) : Eff (option jsstring) :=
  (emit (EvGenerateContent r)) ;;; ([], generateContent W r).

End Runtime.

(* ================================================================== *)
(** ** services/geminiService.ts *)
(* ================================================================== *)

(** [AppSettings] of types.ts.  [provider] is declared as the union
    ['gemini' | 'openai'] and is a string at run time; [baseUrl] is
    optional. *)
Record AppSettings := mkAppSettings {
  provider : jsstring;
  apiKey : jsstring;
  model : jsstring;
  timezone : jsstring;
  baseUrl : option jsstring }.

(** [ApiWeeklyPlanResponse] of types.ts, as a test on a parsed value: a
    string [refinedGoal] and an array [schedule] of objects with a string
    [dayName] and arrays of strings [tasks] and [contentIdeas]. *)
Definition is_string (v : jsval) : bool :=
  match v with Some (JString _) => true | _ => false end.

Definition is_string_array (v : jsval) : bool :=
  match v with
  | Some (JArray items) => forallb (fun x => is_string (Some x)) items
  | _ => false
  end.

Definition is_ApiDayPlan (v : json) : bool :=
  match v with
  | JObject _ =>
      is_string (prop v (js "dayName"))
      && is_string_array (prop v (js "tasks"))
      && is_string_array (prop v (js "contentIdeas"))
  | _ => false
  end.

Definition is_ApiWeeklyPlanResponse (v : json) : bool :=
  match v with
  | JObject _ =>
      is_string (prop v (js "refinedGoal"))
      && match prop v (js "schedule") with
         | Some (JArray days) => forallb is_ApiDayPlan days
         | _ => false
         end
  | _ => false
  end.

Definition geminiResponseSchema : Schema :=
  TypeOBJECT
    [ (js "refinedGoal",
       TypeSTRING (Some (js "A professional, concise summary of the remaining goals to be achieved.")));
      (js "schedule",
       TypeARRAY
         (TypeOBJECT
            [ (js "dayName", TypeSTRING None);
              (js "tasks", TypeARRAY (TypeSTRING None));
              (js "contentIdeas", TypeARRAY (TypeSTRING None)) ]
            [js "dayName"; js "tasks"; js "contentIdeas"])) ]
    [js "refinedGoal"; js "schedule"].

(** *** The prompt builder *)

Record Prompts := mkPrompts { systemInstruction : jsstring; prompt : jsstring }.

Definition IMPORTANT_JSON : jsstring :=
  js "IMPORTANT: You MUST return a valid JSON object.".

(** The text appended to the user prompt for the OpenAI-compatible
    backends. *)
Definition OUTPUT_FORMAT_REQUIREMENTS : jsstring :=
  nl
  ++ js "    " ++ nl
  ++ nl
  ++ nl
  ++ js "    **OUTPUT FORMAT REQUIREMENTS:**" ++ nl
  ++ js "    You must output a single valid JSON object strictly following this structure:" ++ nl
  ++ js "    {" ++ nl
  ++ js "      " ++ dq ++ js "refinedGoal" ++ dq ++ js ": " ++ dq ++ js "string summary of remaining goals" ++ dq ++ js "," ++ nl
  ++ js "      " ++ dq ++ js "schedule" ++ dq ++ js ": [" ++ nl
  ++ js "        {" ++ nl
  ++ js "          " ++ dq ++ js "dayName" ++ dq ++ js ": " ++ dq ++ js "string (e.g. 周五)" ++ dq ++ js "," ++ nl
  ++ js "          " ++ dq ++ js "tasks" ++ dq ++ js ": [" ++ dq ++ js "string" ++ dq ++ js ", " ++ dq ++ js "string" ++ dq ++ js "]," ++ nl
  ++ js "          " ++ dq ++ js "contentIdeas" ++ dq ++ js ": [" ++ dq ++ js "string" ++ dq ++ js ", " ++ dq ++ js "string" ++ dq ++ js "]" ++ nl
  ++ js "        }" ++ nl
  ++ js "      ]" ++ nl
  ++ js "    }" ++ nl
  ++ js "    Do not add Markdown formatting (like ```json). Just the raw JSON string." ++ nl
  ++ js "    ".

Definition buildSystemAndUserPrompt
    (dateStr goalText : jsstring) (isOpenAI : bool) : Prompts :=
  let systemInstruction :=
    nl
    ++ js "    你是一个专为创作者服务的专业内容策略AI助手。" ++ nl
    ++ js "    上下文信息：现在是（用户所在时区）：" ++ dateStr ++ js "。" ++ nl
    ++ js "    你是一个乐于助人且条理清晰的内容创作效率教练。" ++ nl
    ++ js "    " ++ (if isOpenAI then IMPORTANT_JSON else []) ++ nl
    ++ js "  " in
  let prompt :=
    nl
    ++ js "    用户将提供本周的目标说明。" ++ nl
    ++ js "    你的任务是：" ++ nl
    ++ js "    1. **目标提炼（关键）**：分析用户的输入。如果用户提到某些目标“已经完成”，请**剔除**它们。提取出用户**还需要完成**的核心目标，并将其重写为一段简洁、专业、结果导向的目标陈述（即 refinedGoal）。" ++ nl
    ++ js "    2. **时间感知**：根据今天是 " ++ dateStr ++ js "，**只生成从今天开始到本周日**的日程表。" ++ nl
    ++ js "       - 绝对不要生成今天之前的日期的计划。" ++ nl
    ++ js "       - 如果今天是周日，只生成今天的计划。" ++ nl
    ++ js "    3. **制定计划**：为剩余的每一天制定可操作的清单任务。" ++ nl
    ++ js "    4. **创意灵感**：为每一天生成1-2个具体的、富有创意的选题灵感。" ++ nl
    ++ js "    " ++ nl
    ++ js "    用户的输入：" ++ dq ++ goalText ++ dq ++ nl
    ++ js "    " ++ nl
    ++ js "    请务必使用简体中文回复。" ++ nl
    ++ js "  " in
  let prompt := if isOpenAI then prompt ++ OUTPUT_FORMAT_REQUIREMENTS else prompt in
  mkPrompts systemInstruction prompt.

(** *** The adapters *)

Definition DEFAULT_OPENAI_BASE_URL : jsstring := js "https://api.openai.com/v1".

(** The body of [generateWithOpenAI] from the trimmed content on: the
    fence markers are removed when the content starts with one. *)
Definition strip_fence (jsonStr : jsstring) : jsstring :=
  if startsWith jsonStr (js "```json")
  then replace_suffix (js "```") (replace_prefix (js "```json") jsonStr)
  else if startsWith jsonStr (js "```")
  then replace_suffix (js "```") (replace_prefix (js "```") jsonStr)
  else jsonStr.

Section Service.

Variable W : World.

(** [data.choices?.[0]?.message?.content]; reading [choices] of [null]
    throws. *)
Definition first_choice_content (data : json) : Eff jsval :=
  match data with
  | JNull => throw (TypeError W (js "data.choices"))
  | _ =>
      ret (opt_chain (fun m => prop m (js "content"))
            (opt_chain (fun c => prop c (js "message"))
              (opt_chain index0 (prop data (js "choices")))))
  end.

(** Lines 149-157 of the adapter: clean the content and parse it.
    [content] is truthy here; [content.trim] exists on strings only. *)
Definition parse_content (content : jsval) : Eff json :=
  match content with
  | Some (JString s) =>
      let jsonStr := trim s in
      JSON_parse_or_throw W (strip_fence jsonStr)
  | _ => throw (TypeError W (js "content.trim"))
  end.

(** The base URL the adapter uses: [settings.baseUrl || default], less
    one trailing slash. *)
Definition openai_baseUrl (settings : AppSettings) : jsstring :=
  let baseUrl :=
    match baseUrl settings with
    | Some u => if falsy_string u then DEFAULT_OPENAI_BASE_URL else u
    | None => DEFAULT_OPENAI_BASE_URL
    end in
  if endsWith baseUrl (js "/") then slice_0_m1 baseUrl else baseUrl.

Definition openai_payload (settings : AppSettings) (p : Prompts) : json :=
  JObject
    [ (js "model", JString (model settings));
      (js "messages",
       JArray
         [ JObject [ (js "role", JString (js "system"));
                     (js "content", JString (systemInstruction p)) ];
           JObject [ (js "role", JString (js "user"));
                     (js "content", JString (prompt p)) ] ]);
      (js "response_format", JObject [ (js "type", JString (js "json_object")) ]);
      (js "temperature", JNumber (mkNumber false 7 (-1))) ].

(** The request the adapter makes. *)
Definition openai_request
    (goalText : jsstring) (settings : AppSettings) (dateStr : jsstring)
  : Request :=
  let endpoint := openai_baseUrl settings ++ js "/chat/completions" in
  let p := buildSystemAndUserPrompt dateStr goalText true in
  let payload := openai_payload settings p in
  mkRequest endpoint (js "POST")
    [ (js "Content-Type", js "application/json");
      (js "Authorization", js "Bearer " ++ apiKey settings) ]
    (Some payload).

(** The message of the error thrown on a response that is not ok. *)
Definition request_failed_message (response : Response) : jsstring :=
  let errorText := body response in
  js "API Request failed: " ++ of_N (status response)
  ++ js " " ++ statusText response ++ js " - " ++ errorText.

Definition openai_label : jsstring := js "OpenAI/Compatible API Error:".

Definition generateWithOpenAI
    (goalText : jsstring) (settings : AppSettings) (dateStr : jsstring)
  : Eff json :=
  let apiKeyToUse := apiKey settings in
  if falsy_string apiKeyToUse
  then throw (Error (js "API Key (sk-...) is required for this provider."))
  else
    try_catch
      (response <- do_fetch W (openai_request goalText settings dateStr) ;;
       if negb (ok response)
       then throw (Error (request_failed_message response))
       else
         data <- response_json W response ;;
         content <- first_choice_content data ;;
         if falsy content
         then throw (Error (js "No content returned from API."))
         else parse_content content)
      (fun error =>
         emit (EvConsoleError openai_label error) ;;;
         throw error).

(** [settings.apiKey || process.env.API_KEY] *)
Definition gemini_apiKeyToUse (settings : AppSettings) : option jsstring :=
  if falsy_string (apiKey settings) then process_env_API_KEY W
  else Some (apiKey settings).

Definition falsy_opt_string (s : option jsstring) : bool :=
  match s with
  | None => true
  | Some x => falsy_string x
  end.

(** The request the adapter makes with the key it settled on. *)
Definition gemini_request
    (goalText : jsstring) (settings : AppSettings) (dateStr apiKeyToUse : jsstring)
  : SdkRequest :=
  let p := buildSystemAndUserPrompt dateStr goalText false in
  mkSdkRequest apiKeyToUse (model settings) (prompt p)
    (Some (mkGenerateConfig (js "application/json")
             geminiResponseSchema (systemInstruction p))).

Definition generateWithGemini
    (goalText : jsstring) (settings : AppSettings) (dateStr : jsstring)
  : Eff json :=
  match gemini_apiKeyToUse settings with
  | None => throw (Error (js "Gemini API Key is missing."))
  | Some apiKeyToUse =>
      if falsy_string apiKeyToUse
      then throw (Error (js "Gemini API Key is missing."))
      else
        text <- do_generateContent W
                  (gemini_request goalText settings dateStr apiKeyToUse) ;;
        match text with
        | None => throw (Error (js "No response from Gemini"))
        | Some text =>
            if falsy_string text
            then throw (Error (js "No response from Gemini"))
            else JSON_parse_or_throw W text
        end
  end.

Definition validateGeminiConnection (apiKey : jsstring) : Eff bool :=
  if falsy_string apiKey then throw (Error (js "请输入 API Key"))
  else
    try_catch
      (do_generateContent W
         (mkSdkRequest apiKey (js "gemini-2.5-flash") (js "Ping") None) ;;;
       ret true)
      (fun e =>
         emit (EvConsoleError (js "Gemini Validation Failed") e) ;;;
         throw (Error (if falsy_string (exn_message e)
                       then js "验证失败" else exn_message e))).

(** *** The dispatcher *)

Definition generateWeeklyPlan (goalText : jsstring) (settings : AppSettings)
  : Eff json :=
  let now := Date_now W in
  match Intl_DateTimeFormat W (timezone settings) with
  | None => throw (RangeError W (timezone settings))
  | Some formatter =>
      let dateStr := formatter now in
      if streq (provider settings) (js "openai")
      then generateWithOpenAI goalText settings dateStr
      else generateWithGemini goalText settings dateStr
  end.

End Service.

(* ================================================================== *)
(** ** components/SettingsModal.tsx: the two verification handlers *)
(* ================================================================== *)

Inductive ConnectionStatus := idle | success | error.

(** An entry of the model drop-down.  The fields are declared as strings
    and hold whatever [m.id] was. *)
Record ModelOption := mkModelOption { value : jsval; label : jsval }.

(** The entry made from a descriptor whose [id] is the string [id]. *)
Definition option_of_id (id : jsstring) : ModelOption :=
  mkModelOption (Some (JString id)) (Some (JString id)).

(** The state of the modal the handlers read and set. *)
Record ModalState := mkModalState {
  formData : AppSettings;
  isLoading : bool;
  fetchedModels : list ModelOption;
  connectionStatus : ConnectionStatus;
  statusMessage : jsstring }.

Definition setFormData (f : AppSettings) (s : ModalState) : ModalState :=
  mkModalState f (isLoading s) (fetchedModels s) (connectionStatus s) (statusMessage s).
Definition setIsLoading (b : bool) (s : ModalState) : ModalState :=
  mkModalState (formData s) b (fetchedModels s) (connectionStatus s) (statusMessage s).
Definition setFetchedModels (l : list ModelOption) (s : ModalState) : ModalState :=
  mkModalState (formData s) (isLoading s) l (connectionStatus s) (statusMessage s).
Definition setConnectionStatus (c : ConnectionStatus) (s : ModalState) : ModalState :=
  mkModalState (formData s) (isLoading s) (fetchedModels s) c (statusMessage s).
Definition setStatusMessage (m : jsstring) (s : ModalState) : ModalState :=
  mkModalState (formData s) (isLoading s) (fetchedModels s) (connectionStatus s) m.

Section SettingsModal.

Variable W : World.

(** The base URL the probe uses: [formData.baseUrl || default], less one
    trailing slash. *)
Definition verify_baseUrl (formData : AppSettings) : jsstring :=
  let baseUrl :=
    match baseUrl formData with
    | Some u => if falsy_string u then js "https://api.openai.com/v1" else u
    | None => js "https://api.openai.com/v1"
    end in
  if endsWith baseUrl (js "/") then slice_0_m1 baseUrl else baseUrl.

(** The request the probe makes. *)
Definition models_request (formData : AppSettings) : Request :=
  mkRequest (verify_baseUrl formData ++ js "/models") (js "GET")
    [ (js "Authorization", js "Bearer " ++ apiKey formData);
      (js "Content-Type", js "application/json") ]
    None.

(** [(m) => ({value: m.id, label: m.id})]; reading [id] of [null] throws. *)
Definition to_option (m : json) : exn + ModelOption :=
  match m with
  | JNull => inl (TypeError W (js "m.id"))
  | _ => inr (mkModelOption (prop m (js "id")) (prop m (js "id")))
  end.

Fixpoint map_to_option (items : list json) : exn + list ModelOption :=
  match items with
  | [] => inr []
  | m :: r =>
      match to_option m with
      | inl e => inl e
      | inr o =>
          match map_to_option r with
          | inl e => inl e
          | inr os => inr (o :: os)
          end
      end
  end.

(** [(a, b) => a.value.localeCompare(b.value)]; only a string has the
    method. *)
Definition compare_options (a b : ModelOption) : exn + Z :=
  match value a with
  | Some (JString s) => inr (localeCompare W s (value b))
  | _ => inl (TypeError W (js "a.value.localeCompare"))
  end.

(** [a] does not come after [b] in the collation of the runtime. *)
Definition collates_before (a b : jsstring) : Prop :=
  (localeCompare W a (Some (JString b)) <= 0)%Z.

(** [Array.prototype.sort] is stable, and with a consistent comparator
    its result is the one stable sorted arrangement, whichever algorithm
    the engine runs; it is written here as an insertion sort that takes
    the elements in order and puts each among the sorted ones before it.
    The comparator is called as the engine calls it, on the later
    element first: [compare(later, earlier)], from the nearest earlier
    element back.  [insert_option] holds the sorted elements last
    first. *)
Fixpoint insert_option (x : ModelOption) (sorted_rev : list ModelOption)
  : exn + list ModelOption :=
  match sorted_rev with
  | [] => inr [x]
  | y :: r =>
      match compare_options x y with
      | inl e => inl e
      | inr c =>
          if (c <? 0)%Z
          then match insert_option x r with
               | inl e => inl e
               | inr r' => inr (y :: r')
               end
          else inr (x :: y :: r)
      end
  end.

Fixpoint sort_from (sorted_rev l : list ModelOption) : exn + list ModelOption :=
  match l with
  | [] => inr (rev sorted_rev)
  | x :: r =>
      match insert_option x sorted_rev with
      | inl e => inl e
      | inr sorted_rev' => sort_from sorted_rev' r
      end
  end.

Definition sort_options (l : list ModelOption) : exn + list ModelOption :=
  sort_from [] l.

(** [data.data.map(...).sort(...)] *)
Definition modelsFromApi (items : list json) : exn + list ModelOption :=
  match map_to_option items with
  | inl e => inl e
  | inr os => sort_options os
  end.

(** The [try] block of [handleVerifyOpenAI]: the models it sets, or what
    it throws. *)
Definition fetch_models (formData : AppSettings) : Eff (list ModelOption) :=
  response <- do_fetch W (models_request formData) ;;
  if negb (ok response)
  then throw (Error (js "HTTP " ++ of_N (status response)))
  else
    data <- response_json W response ;;
    match (if falsy (Some data) then None else prop data (js "data")) with
    | Some (JArray items) =>
        models <- ([], modelsFromApi items) ;;
        if (List.length models =? 0)%nat
        then throw (Error (js "未找到模型"))
        else ret models
    | _ => throw (Error (js "格式错误"))
    end.

(** A handler yields the events it caused and the state the modal ends
    in. *)
Definition handleVerifyOpenAI (s : ModalState) : list event * ModalState :=
  if falsy_string (apiKey (formData s)) then
    ([], setStatusMessage (js "请先输入 API Key") (setConnectionStatus error s))
  else
    let s := setStatusMessage (js "正在连接...")
               (setConnectionStatus idle (setIsLoading true s)) in
    match fetch_models (formData s) with
    | (t, inr models) =>
        (t,
         setIsLoading false
           (setStatusMessage
              (js "验证成功，获取到 " ++ of_N (N.of_nat (List.length models))
               ++ js " 个模型")
              (setConnectionStatus success (setFetchedModels models s))))
    | (t, inl e) =>
        (t ++ [EvConsoleError (js "Fetch models error:") e],
         setIsLoading false
           (setStatusMessage
              (if falsy_string (exn_message e) then js "连接失败"
               else exn_message e)
              (setConnectionStatus error s)))
    end.

Definition handleVerifyGemini (s : ModalState) : list event * ModalState :=
  if falsy_string (apiKey (formData s)) then
    ([], setStatusMessage (js "请先输入 API Key") (setConnectionStatus error s))
  else
    let s := setStatusMessage (js "正在验证 Key...")
               (setConnectionStatus idle (setIsLoading true s)) in
    match validateGeminiConnection W (apiKey (formData s)) with
    | (t, inr _) =>
        (t,
         setIsLoading false
           (setStatusMessage (js "验证成功！Key 有效")
              (setConnectionStatus success s)))
    | (t, inl e) =>
        (t ++ [EvConsoleError (js "Gemini verify error:") e],
         setIsLoading false
           (setStatusMessage (js "验证失败，请检查 Key")
              (setConnectionStatus error s)))
    end.

End SettingsModal.

(** *** The provider switch and the model drop-down *)

Definition preset (v l : string) : ModelOption :=
  mkModelOption (Some (JString (js v))) (Some (JString (js l))).

Definition GEMINI_MODELS : list ModelOption :=
  [ preset "gemini-2.5-flash" "Gemini 2.5 Flash";
    preset "gemini-2.0-flash" "Gemini 2.0 Flash";
    preset "gemini-2.0-flash-lite" "Gemini 2.0 Flash Lite";
    preset "gemini-1.5-pro" "Gemini 1.5 Pro";
    preset "gemini-2.0-pro-exp-0211" "Gemini 2.0 Pro Experimental" ].

Definition DEFAULT_OPENAI_MODELS : list ModelOption :=
  [ preset "gpt-4o" "GPT-4o";
    preset "gpt-4o-mini" "GPT-4o Mini";
    preset "gpt-3.5-turbo" "GPT-3.5 Turbo";
    preset "deepseek-chat" "DeepSeek V3";
    preset "deepseek-reasoner" "DeepSeek R1";
    preset "claude-3-5-sonnet-20240620" "Claude 3.5 Sonnet" ].

Definition handleProviderChange (newProvider : jsstring) (s : ModalState)
  : ModalState :=
  let newModel := model (formData s) in
  let newBaseUrl := baseUrl (formData s) in
  let '(newModel, newBaseUrl) :=
    if streq newProvider (js "gemini")
    then (js "gemini-2.5-flash", Some [])
    else
      (if startsWith newModel (js "gemini") then js "gpt-4o-mini" else newModel,
       if falsy_opt_string newBaseUrl
       then Some (js "https://api.openai.com/v1") else newBaseUrl) in
  setStatusMessage []
    (setConnectionStatus idle
       (setFetchedModels []
          (setFormData
             (mkAppSettings newProvider (apiKey (formData s)) newModel
                (timezone (formData s)) newBaseUrl)
             s))).

(** [formData.provider === 'openai'] *)
Definition isOpenAI (s : ModalState) : bool :=
  streq (provider (formData s)) (js "openai").

(** The list behind the model drop-down. *)
Definition dropdownOptions (s : ModalState) : list ModelOption :=
  let dropdownOptions := if isOpenAI s then DEFAULT_OPENAI_MODELS else GEMINI_MODELS in
  if isOpenAI s && (0 <? List.length (fetchedModels s))%nat
  then fetchedModels s
  else dropdownOptions.

(** [o.value === formData.model] *)
Definition is_model (m : jsstring) (o : ModelOption) : bool :=
  match value o with
  | Some (JString v) => streq v m
  | _ => false
  end.

(** The value of the select element: the model when the list has it,
    the empty placeholder otherwise. *)
Definition select_value (s : ModalState) : jsstring :=
  if existsb (is_model (model (formData s))) (dropdownOptions s)
  then model (formData s) else [].

(* ================================================================== *)
(** ** App.tsx: the generation handler *)
(* ================================================================== *)

Record TaskItem := mkTaskItem {
  task_id : jsstring; task_text : json; completed : bool }.

(** [dayName] and [contentIdeas] are declared as a string and an array
    of strings and hold whatever the response had. *)
Record DayPlan := mkDayPlan {
  dayName : jsval; tasks : list TaskItem; contentIdeas : jsval }.

Record WeeklyPlan := mkWeeklyPlan {
  plan_id : jsstring;
  createdAt : Z;
  originalGoal : jsstring;
  refinedGoal : jsval;
  days : list DayPlan }.

Record AppState := mkAppState {
  goalInput : jsstring;
  plan : option WeeklyPlan;
  app_isLoading : bool;
  app_error : option jsstring;
  isSettingsOpen : bool;
  settings : AppSettings }.

Definition setGoalInput (g : jsstring) (s : AppState) : AppState :=
  mkAppState g (plan s) (app_isLoading s) (app_error s) (isSettingsOpen s) (settings s).
Definition setPlan (p : option WeeklyPlan) (s : AppState) : AppState :=
  mkAppState (goalInput s) p (app_isLoading s) (app_error s) (isSettingsOpen s) (settings s).
Definition setAppIsLoading (b : bool) (s : AppState) : AppState :=
  mkAppState (goalInput s) (plan s) b (app_error s) (isSettingsOpen s) (settings s).
Definition setError (e : option jsstring) (s : AppState) : AppState :=
  mkAppState (goalInput s) (plan s) (app_isLoading s) e (isSettingsOpen s) (settings s).
Definition setIsSettingsOpen (b : bool) (s : AppState) : AppState :=
  mkAppState (goalInput s) (plan s) (app_isLoading s) (app_error s) b (settings s).

Definition AUTH_FAILED : jsstring :=
  js "API 认证失败。请在设置中检查您的 Key 和接口地址。".
Definition GENERATE_FAILED : jsstring := js "生成计划失败，请检查设置。".

Section App.

Variable W : World.

(** The successive readings of [Date.now()] while the handler builds the
    plan: reading 0 is the id of the plan, reading 1 its creation time,
    and each task takes the next one. *)
Variable Date_now_reading : nat -> Z.

(** [day.tasks.map((taskText, taskIndex) => ({id, text, completed}))],
    the first task taking reading [k]. *)
Fixpoint map_tasks (dayIndex taskIndex k : nat) (texts : list json)
  : list TaskItem :=
  match texts with
  | [] => []
  | taskText :: r =>
      mkTaskItem
        (js "day-" ++ of_N (N.of_nat dayIndex) ++ js "-task-"
         ++ of_N (N.of_nat taskIndex) ++ js "-" ++ of_Z (Date_now_reading k))
        taskText false
      :: map_tasks dayIndex (S taskIndex) (S k) r
  end.

(** [apiResponse.schedule.map((day, dayIndex) => ...)]: a day that is
    [null], or whose [tasks] is no array, throws. *)
Fixpoint map_days (dayIndex k : nat) (schedule : list json)
  : exn + list DayPlan :=
  match schedule with
  | [] => inr []
  | day :: r =>
      match day with
      | JNull => inl (TypeError W (js "day.dayName"))
      | _ =>
          match prop day (js "tasks") with
          | Some (JArray texts) =>
              let d := mkDayPlan (prop day (js "dayName"))
                         (map_tasks dayIndex 0 k texts)
                         (prop day (js "contentIdeas")) in
              match map_days (S dayIndex) (k + List.length texts) r with
              | inl e => inl e
              | inr ds => inr (d :: ds)
              end
          | _ => inl (TypeError W (js "day.tasks.map"))
          end
      end
  end.

(** The object [newPlan] of the handler. *)
Definition newPlan (goalInput : jsstring) (apiResponse : json)
  : exn + WeeklyPlan :=
  match apiResponse with
  | JNull => inl (TypeError W (js "apiResponse.refinedGoal"))
  | _ =>
      match prop apiResponse (js "schedule") with
      | Some (JArray schedule) =>
          match map_days 0 2 schedule with
          | inl e => inl e
          | inr ds =>
              inr (mkWeeklyPlan (of_Z (Date_now_reading 0)) (Date_now_reading 1)
                     goalInput (prop apiResponse (js "refinedGoal")) ds)
          end
      | _ => inl (TypeError W (js "apiResponse.schedule.map"))
      end
  end.

(** The [catch] block: what the handler shows for a thrown value. *)
Definition report (err : exn) (s : AppState) : AppState :=
  if negb (falsy_string (exn_message err))
     && (includes (exn_message err) (js "API Key")
         || includes (exn_message err) (js "401"))
  then setIsSettingsOpen true (setError (Some AUTH_FAILED) s)
  else setError (Some (if falsy_string (exn_message err) then GENERATE_FAILED
                       else exn_message err)) s.

Definition handleGenerate (s : AppState) : list event * AppState :=
  if falsy_string (trim (goalInput s)) then ([], s)
  else
    let s := setError None (setAppIsLoading true s) in
    match generateWeeklyPlan W (goalInput s) (settings s) with
    | (t, inr apiResponse) =>
        match newPlan (goalInput s) apiResponse with
        | inr p =>
            (t, setAppIsLoading false (setGoalInput [] (setPlan (Some p) s)))
        | inl err =>
            (t ++ [EvConsoleError [] err], setAppIsLoading false (report err s))
        end
    | (t, inl err) =>
        (t ++ [EvConsoleError [] err], setAppIsLoading false (report err s))
    end.

End App.

(** The ids of all the tasks of a plan, day after day. *)
Definition all_task_ids (p : WeeklyPlan) : list jsstring :=
  flat_map (fun d => map task_id (tasks d)) (days p).

(** How a day of the plan stands to the day of the response it was made
    from: same name and ideas, the same task texts in the same order,
    nothing ticked. *)
Definition day_matches (day : json) (d : DayPlan) : Prop :=
  dayName d = prop day (js "dayName")
  /\ contentIdeas d = prop day (js "contentIdeas")
  /\ prop day (js "tasks") = Some (JArray (map task_text (tasks d)))
  /\ forallb (fun t => negb (completed t)) (tasks d) = true.

(* ================================================================== *)
(** ** Concrete runtimes and inputs, for the examples *)
(* ================================================================== *)

Module Examples.

(** A quoted JSON string literal without escapes. *)
Definition q (s : string) : jsstring := dq ++ js s ++ dq.

(** A collation to run examples with: code units compared in order. *)
Fixpoint compare_units (a b : jsstring) : Z :=
  match a, b with
  | [], [] => 0
  | [], _ :: _ => -1
  | _ :: _, [] => 1
  | x :: a', y :: b' =>
      if (x <? y)%N then -1 else if (y <? x)%N then 1 else compare_units a' b'
  end.

Definition compare_with (a : jsstring) (b : jsval) : Z :=
  match b with
  | Some (JString s) => compare_units a s
  | _ => 0
  end.

(** A runtime whose endpoint, SDK and environment answer as given, and
    which knows the time zone Asia/Shanghai only. *)
Definition mock (fetched : exn + Response) (generated : exn + option jsstring)
    (env_key : option jsstring) : World :=
  mkWorld (fun _ => fetched) (fun _ => generated) env_key 1735689600000
    (fun tz => if streq tz (js "Asia/Shanghai")
               then Some (fun _ => js "2025年1月1日星期三") else None)
    compare_with
    (fun _ => js "Unexpected token")
    (fun what => what ++ js " is not usable")
    (fun tz => js "Invalid time zone specified: " ++ tz).

Definition unreachable : exn := mkExn (js "TypeError") (js "Failed to fetch").

(** The plan of the scenario in the specification. *)
Definition plan_text : jsstring :=
  js "{" ++ q "refinedGoal" ++ js ":" ++ q "Write 3 remaining articles" ++ js ","
  ++ q "schedule" ++ js ":[{" ++ q "dayName" ++ js ":" ++ q "周三" ++ js ","
  ++ q "tasks" ++ js ":[" ++ q "Draft article 3" ++ js "],"
  ++ q "contentIdeas" ++ js ":[" ++ q "Topic A" ++ js "]}]}".

Definition plan_value : json :=
  JObject
    [ (js "refinedGoal", JString (js "Write 3 remaining articles"));
      (js "schedule",
       JArray
         [ JObject [ (js "dayName", JString (js "周三"));
                     (js "tasks", JArray [JString (js "Draft article 3")]);
                     (js "contentIdeas", JArray [JString (js "Topic A")]) ] ]) ].

(** A chat completion whose first choice carries an empty object inside a
    json fence, the line breaks written as JSON escapes. *)
Definition fenced_completion : jsstring :=
  js "{" ++ q "choices" ++ js ":[{" ++ q "message" ++ js ":{" ++ q "content"
  ++ js ":" ++ dq ++ js "```json\n{}\n```" ++ dq ++ js "}}]}".

(** The same with two spaces before the fence and a line break after
    it. *)
Definition padded_completion : jsstring :=
  js "{" ++ q "choices" ++ js ":[{" ++ q "message" ++ js ":{" ++ q "content"
  ++ js ":" ++ dq ++ js "  ```json\n{}\n```\n" ++ dq ++ js "}}]}".

(** A chat completion whose first choice carries text that is no JSON. *)
Definition prose_completion : jsstring :=
  js "{" ++ q "choices" ++ js ":[{" ++ q "message" ++ js ":{" ++ q "content"
  ++ js ":" ++ q "Sorry, no plan today." ++ js "}}]}".

(** A model list in no particular order, and an empty one. *)
Definition models_body : jsstring :=
  js "{" ++ q "data" ++ js ":[{" ++ q "id" ++ js ":" ++ q "gpt-4o" ++ js "},{"
  ++ q "id" ++ js ":" ++ q "deepseek-chat" ++ js "},{"
  ++ q "id" ++ js ":" ++ q "gpt-4o-mini" ++ js "}]}".

Definition no_models_body : jsstring := js "{" ++ q "data" ++ js ":[]}".

(** A collation in the manner of the engines' default one, for ASCII
    letters: the letters are compared without regard to case first, and
    of two strings that differ in case only the one with the small
    letter comes first. *)
Definition fold_case (c : N) : N :=
  if ((65 <=? c) && (c <=? 90))%N then (c + 32)%N else c.

Definition compare_collated (a b : jsstring) : Z :=
  let primary := compare_units (map fold_case a) (map fold_case b) in
  if (primary =? 0)%Z then (- compare_units a b)%Z else primary.

Definition collate_with (a : jsstring) (b : jsval) : Z :=
  match b with
  | Some (JString s) => compare_collated a s
  | _ => 0
  end.

(** The runtime of [mock] with that collation. *)
Definition collating (fetched : exn + Response) : World :=
  mkWorld (fun _ => fetched) (fun _ => inl unreachable) None 1735689600000
    (fun tz => if streq tz (js "Asia/Shanghai")
               then Some (fun _ => js "2025年1月1日星期三") else None)
    collate_with
    (fun _ => js "Unexpected token")
    (fun what => what ++ js " is not usable")
    (fun tz => js "Invalid time zone specified: " ++ tz).

(** Two models whose ids differ in the case of the first letter. *)
Definition mixed_case_body : jsstring :=
  js "{" ++ q "data" ++ js ":[{" ++ q "id" ++ js ":" ++ q "B" ++ js "},{"
  ++ q "id" ++ js ":" ++ q "a" ++ js "}]}".

(** A response of two days, with two tasks and one. *)
Definition two_day_value : json :=
  JObject
    [ (js "refinedGoal", JString (js "Write 3 remaining articles"));
      (js "schedule",
       JArray
         [ JObject [ (js "dayName", JString (js "周三"));
                     (js "tasks", JArray [JString (js "Draft article 3");
                                          JString (js "Draft article 4")]);
                     (js "contentIdeas", JArray [JString (js "Topic A")]) ];
           JObject [ (js "dayName", JString (js "周四"));
                     (js "tasks", JArray [JString (js "Draft article 5")]);
                     (js "contentIdeas", JArray []) ] ]) ].

Definition gemini_settings (key : jsstring) : AppSettings :=
  mkAppSettings (js "gemini") key (js "gemini-2.5-flash") (js "Asia/Shanghai") None.

Definition openai_settings (key : jsstring) (url : option jsstring) : AppSettings :=
  mkAppSettings (js "openai") key (js "gpt-4o-mini") (js "Asia/Shanghai") url.

Definition modal (settings : AppSettings) : ModalState :=
  mkModalState settings false [] idle [].

Definition goal : jsstring :=
  js "Write 5 articles this week, Monday and Tuesday done".

Definition today : jsstring := js "2025年1月1日星期三".

Definition app (goal : jsstring) (settings : AppSettings) : AppState :=
  mkAppState goal None false None false settings.

(** A clock that advances one millisecond per reading. *)
Definition ticking (k : nat) : Z := (1735689600000 + Z.of_nat k)%Z.

End Examples.

(* ================================================================== *)
(** ** Properties of the string operations *)
(* ================================================================== *)

Lemma startsWith_app (p s : jsstring) : startsWith (p ++ s) p = true.
Proof.
  induction p as [|y p IH]; simpl; [reflexivity|].
  now rewrite N.eqb_refl, IH.
Qed.

Lemma startsWith_prefix (s p : jsstring) :
  startsWith s p = true -> exists r, s = p ++ r.
Proof.
  revert s; induction p as [|y p IH]; intros s H.
  - now exists s.
  - destruct s as [|x s]; simpl in H; [discriminate|].
    apply andb_prop in H as [Hx Hs].
    apply N.eqb_eq in Hx; subst x.
    destruct (IH _ Hs) as [r ->]. now exists r.
Qed.

Lemma endsWith_app (s p : jsstring) : endsWith (s ++ p) p = true.
Proof.
  unfold endsWith. rewrite rev_app_distr. apply startsWith_app.
Qed.

Lemma replace_prefix_app (p s : jsstring) : replace_prefix p (p ++ s) = s.
Proof.
  unfold replace_prefix. rewrite startsWith_app.
  induction p; simpl; auto.
Qed.

Lemma replace_suffix_app (p s : jsstring) : replace_suffix p (s ++ p) = s.
Proof.
  unfold replace_suffix. rewrite endsWith_app.
  rewrite length_app, Nat.add_sub.
  rewrite firstn_app, Nat.sub_diag, firstn_all. simpl. apply app_nil_r.
Qed.

Lemma slice_0_m1_app (s : jsstring) (c : N) : slice_0_m1 (s ++ [c]) = s.
Proof.
  unfold slice_0_m1. rewrite length_app. simpl. rewrite Nat.add_sub.
  rewrite firstn_app, Nat.sub_diag, firstn_all. simpl. apply app_nil_r.
Qed.

Lemma endsWith_last (s : jsstring) (c d : N) :
  endsWith (s ++ [c]) [d] = (c =? d)%N.
Proof.
  unfold endsWith. rewrite rev_app_distr. simpl. apply andb_true_r.
Qed.

Lemma includes_startsWith (s x : jsstring) :
  startsWith s x = true -> includes s x = true.
Proof. intros H. destruct s; simpl; now rewrite H. Qed.

Lemma includes_app (pre x post : jsstring) :
  includes (pre ++ x ++ post) x = true.
Proof.
  induction pre as [|c pre IH]; simpl.
  - apply includes_startsWith, startsWith_app.
  - rewrite IH. apply orb_true_r.
Qed.

Lemma includes_suffix (pre x : jsstring) : includes (pre ++ x) x = true.
Proof.
  rewrite <- (app_nil_r x) at 1. apply includes_app.
Qed.

Lemma startsWith_In (s p : jsstring) (c : N) :
  startsWith s p = true -> In c p -> In c s.
Proof.
  intros H Hc. destruct (startsWith_prefix _ _ H) as [r ->].
  apply in_or_app; now left.
Qed.

Lemma includes_In (s x : jsstring) (c : N) :
  includes s x = true -> In c x -> In c s.
Proof.
  induction s as [|a s IH]; simpl; intros H Hc.
  - rewrite orb_false_r in H. destruct x; [destruct Hc | discriminate].
  - apply orb_prop in H as [H|H].
    + exact (startsWith_In (a :: s) x c H Hc).
    + right; auto.
Qed.

Lemma trimStart_split (s : jsstring) :
  exists w, s = w ++ trimStart s /\ forallb isWhiteSpace w = true.
Proof.
  induction s as [|c s [w [E F]]]; simpl.
  - now exists [].
  - destruct (isWhiteSpace c) eqn:Hc.
    + exists (c :: w). simpl. rewrite Hc, F. split; [now f_equal | reflexivity].
    + now exists [].
Qed.

Lemma trimEnd_split (s : jsstring) :
  exists w, s = trimEnd s ++ w /\ forallb isWhiteSpace w = true.
Proof.
  destruct (trimStart_split (rev s)) as [w [E F]].
  exists (rev w). split.
  - unfold trimEnd. rewrite <- rev_app_distr, <- E. symmetry; apply rev_involutive.
  - rewrite forallb_forall in *. intros x Hx. apply F. now apply in_rev.
Qed.

Lemma trimStart_id (c : N) (s : jsstring) :
  isWhiteSpace c = false -> trimStart (c :: s) = c :: s.
Proof. intros H; simpl; now rewrite H. Qed.

Lemma trimEnd_id (s : jsstring) (c : N) :
  isWhiteSpace c = false -> trimEnd (s ++ [c]) = s ++ [c].
Proof.
  intros H. unfold trimEnd. rewrite rev_app_distr. simpl. rewrite H.
  simpl. now rewrite rev_involutive.
Qed.

(* ================================================================== *)
(** ** Properties of the parser *)
(* ================================================================== *)

Lemma run_err (stack : list frame) (s : jsstring) :
  run (MErr, stack) s = (MErr, stack).
Proof. induction s; simpl; auto. Qed.

Lemma finish_run_err (stack : list frame) (s : jsstring) :
  finish (run (MErr, stack) s) = None.
Proof. rewrite run_err. reflexivity. Qed.

Lemma run_app (q : state) (s t : jsstring) :
  run q (s ++ t) = run (run q s) t.
Proof. apply fold_left_app. Qed.

(** A code unit that [trim] removes is JSON white space or starts and
    continues nothing. *)
Lemma ws_eqb (a k : N) :
  isWhiteSpace a = true -> isWhiteSpace k = false -> (a =? k)%N = false.
Proof.
  intros Ha Hk. apply N.eqb_neq. intros ->. congruence.
Qed.

Lemma ws_digit (a : N) : isWhiteSpace a = true -> digit a = None.
Proof.
  unfold isWhiteSpace, digit. intros H.
  destruct ((48 <=? a) && (a <=? 57))%N eqn:E; [|reflexivity].
  exfalso. apply andb_prop in E as [E1 E2].
  apply N.leb_le in E1, E2.
  repeat (apply orb_prop in H as [H|H]);
    repeat match goal with
      | H : (_ && _)%bool = true |- _ => apply andb_prop in H as [? ?]
      | H : (_ <=? _)%N = true |- _ => apply N.leb_le in H
      | H : (_ =? _)%N = true |- _ => apply N.eqb_eq in H
      end; lia.
Qed.

Lemma ws_hexval (a : N) : isWhiteSpace a = true -> hexval a = None.
Proof.
  unfold isWhiteSpace, hexval. intros H.
  destruct ((48 <=? a) && (a <=? 57))%N eqn:E1;
  [|destruct ((97 <=? a) && (a <=? 102))%N eqn:E2;
    [|destruct ((65 <=? a) && (a <=? 70))%N eqn:E3; [|reflexivity]]];
  exfalso;
  repeat (apply orb_prop in H as [H|H]);
    repeat match goal with
      | H : (_ && _)%bool = true |- _ => apply andb_prop in H as [? ?]
      | H : (_ <=? _)%N = true |- _ => apply N.leb_le in H
      | H : (_ =? _)%N = true |- _ => apply N.eqb_eq in H
      end; lia.
Qed.

Ltac ws_tests a Ha :=
  repeat match goal with
    | |- context [(a =? ?k)%N] => rewrite (ws_eqb a k Ha eq_refl)
    | H : context [(a =? ?k)%N] |- _ => rewrite (ws_eqb a k Ha eq_refl) in H
    end;
  try rewrite (ws_digit a Ha) in *;
  try rewrite (ws_hexval a Ha) in *.

Lemma start_value_ws (a : N) (stack : list frame) :
  isWhiteSpace a = true -> start_value a stack = (MErr, stack).
Proof.
  intros Ha. unfold start_value. ws_tests a Ha. reflexivity.
Qed.

Lemma num_step_ws (a : N) (acc : numacc) (ns : numst) :
  isWhiteSpace a = true -> num_step acc ns a = None.
Proof.
  intros Ha. destruct ns; unfold num_step, is_e; ws_tests a Ha; reflexivity.
Qed.

Lemma finish_complete (v w : json) (stack : list frame) :
  finish (complete v stack) = Some w -> stack = [] /\ w = v.
Proof.
  destruct stack as [|[acc|acc k] st]; simpl; intros H; try discriminate.
  now inversion H.
Qed.

Lemma finish_step_after_ws (q : state) (a : N) (v : json) :
  isWhiteSpace a = true ->
  finish (step_after q a) = Some v -> finish q = Some v.
Proof.
  intros Ha. destruct q as [m stack]. unfold step_after.
  destruct m; try (simpl; discriminate);
    destruct (is_json_ws a); auto; ws_tests a Ha; simpl; discriminate.
Qed.

Lemma lit_ok_complete (v : json) (stack : list frame) :
  lit_ok (complete v stack) = true.
Proof. destruct stack as [|[acc|acc k] st]; reflexivity. Qed.

Lemma lit_ok_start_value (c : N) (stack : list frame) :
  lit_ok (start_value c stack) = true.
Proof.
  unfold start_value.
  repeat match goal with
    | |- context [if ?b then _ else _] => destruct b; try reflexivity
    end.
  destruct (digit c); [destruct (n =? 0)%N|]; reflexivity.
Qed.

Lemma lit_ok_step_after (q : state) (c : N) : lit_ok (step_after q c) = true.
Proof.
  destruct q as [m stack]. unfold step_after.
  destruct m; try reflexivity;
    repeat match goal with
      | |- context [if ?b then _ else _] => destruct b; try reflexivity
      end; apply lit_ok_complete.
Qed.

Lemma lit_ok_step (q : state) (c : N) :
  lit_ok q = true -> lit_ok (step q c) = true.
Proof.
  destruct q as [m stack].
  destruct m as [| |ea| |oa|oa k|oa|key buf st|acc ns|next rest lv|dv|];
    intros Hq; cbn [step];
    try apply lit_ok_step_after;
    try match goal with
      | |- context [is_json_ws c] =>
          repeat match goal with
            | |- context [if ?b then _ else _] => destruct b
            end;
          try reflexivity; try apply lit_ok_complete;
          apply lit_ok_start_value
      end;
    try reflexivity.
  - destruct st as [| |more hacc].
    + destruct (c =? 34)%N; [destruct key; [reflexivity|apply lit_ok_complete]|].
      destruct (c =? 92)%N; [reflexivity|]. destruct (c <? 32)%N; reflexivity.
    + destruct (c =? 117)%N; [reflexivity|]. destruct (escape c); reflexivity.
    + destruct (hexval c); [destruct more|]; reflexivity.
  - destruct (num_step acc ns c) as [[a' ns']|]; [reflexivity|].
    destruct (num_complete ns); [apply lit_ok_step_after|reflexivity].
  - destruct (c =? next)%N; [|reflexivity].
    destruct rest as [|x r]; [apply lit_ok_complete|].
    unfold lit_ok in *. simpl in *.
    apply andb_prop in Hq as [_ Hq]. exact Hq.
Qed.

Lemma lit_ok_run (s : jsstring) (q : state) :
  lit_ok q = true -> lit_ok (run q s) = true.
Proof.
  revert q; induction s as [|c s IH]; simpl; intros q Hq; [assumption|].
  apply IH. now apply lit_ok_step.
Qed.

(** Reading a code unit that [trim] removes never turns a text that is
    not complete into a complete one. *)
Lemma finish_step_ws (q : state) (a : N) (v : json) :
  lit_ok q = true ->
  isWhiteSpace a = true ->
  finish (step q a) = Some v -> finish q = Some v.
Proof.
  intros Hq Ha. destruct q as [m stack].
  destruct m as [| |ea| |oa|oa k|oa|key buf st|acc ns|next rest lv|dv|];
    cbn [step];
    try (apply finish_step_after_ws; assumption);
    try match goal with
      | |- context [is_json_ws a] => destruct (is_json_ws a); [auto|]
      end;
    ws_tests a Ha;
    try rewrite (start_value_ws a _ Ha);
    try (simpl; discriminate).
  - (* inside a string *)
    destruct st as [| |more hacc]; ws_tests a Ha.
    + destruct (a <? 32)%N; simpl; discriminate.
    + unfold escape. ws_tests a Ha. simpl; discriminate.
    + simpl; discriminate.
  - (* inside a number *)
    rewrite (num_step_ws a acc ns Ha).
    destruct (num_complete ns) eqn:Hn; [|simpl; discriminate].
    intros H. apply finish_step_after_ws in H; [|assumption].
    apply finish_complete in H as [-> ->]. simpl. now rewrite Hn.
  - (* inside a literal *)
    unfold lit_ok in Hq. simpl in Hq. apply andb_prop in Hq as [Hn _].
    destruct (N.eqb_spec a next) as [->|_]; [|simpl; discriminate].
    rewrite Ha in Hn. discriminate.
Qed.

Lemma finish_run_ws (w : jsstring) (q : state) (v : json) :
  lit_ok q = true ->
  forallb isWhiteSpace w = true ->
  finish (run q w) = Some v -> finish q = Some v.
Proof.
  revert q; induction w as [|a w IH]; simpl; intros q Hq Hw H; [assumption|].
  apply andb_prop in Hw as [Ha Hw].
  apply (finish_step_ws q a v Hq Ha). apply IH; auto using lit_ok_step.
Qed.

Lemma JSON_parse_trimStart (c : jsstring) (v : json) :
  JSON_parse c = Some v -> JSON_parse (trimStart c) = Some v.
Proof.
  unfold JSON_parse. induction c as [|a c IH]; simpl; [auto|].
  destruct (isWhiteSpace a) eqn:Ha; [|auto].
  destruct (is_json_ws a); [exact IH|].
  rewrite (start_value_ws a [] Ha).
  change (finish (run (MErr, []) c) = Some v -> finish (run (MValue, []) (trimStart c)) = Some v).
  rewrite finish_run_err. discriminate.
Qed.

Lemma JSON_parse_trimEnd (c : jsstring) (v : json) :
  JSON_parse c = Some v -> JSON_parse (trimEnd c) = Some v.
Proof.
  unfold JSON_parse. destruct (trimEnd_split c) as [w [E F]].
  rewrite E at 1. rewrite run_app. apply finish_run_ws; [|assumption].
  now apply lit_ok_run.
Qed.

(** A text that parses is parsed to the same value after [trim]. *)
Lemma JSON_parse_trim (c : jsstring) (v : json) :
  JSON_parse c = Some v -> JSON_parse (trim c) = Some v.
Proof.
  intros H. unfold trim. now apply JSON_parse_trimEnd, JSON_parse_trimStart.
Qed.

(** A text that parses starts with a code unit that can start a value
    or with JSON white space: not with a backquote and not with j. *)
Lemma JSON_parse_first (c : jsstring) (v : json) :
  JSON_parse c = Some v ->
  exists x r, c = x :: r /\ x <> 96%N /\ x <> 106%N.
Proof.
  destruct c as [|x r]; [discriminate|].
  intros H. exists x, r. split; [reflexivity|].
  split; intros ->; unfold JSON_parse in H; simpl in H;
    change (finish (run (MErr, []) r) = Some v) in H;
    rewrite finish_run_err in H; discriminate.
Qed.

(* ================================================================== *)
(** ** The code fence *)
(* ================================================================== *)

Lemma startsWith_app_false (s p q : jsstring) :
  startsWith s p = false -> startsWith s (p ++ q) = false.
Proof.
  revert s; induction p as [|y p IH]; intros s H; [discriminate|].
  destruct s as [|x s]; [reflexivity|]. simpl in *.
  destruct (x =? y)%N; [now apply IH | reflexivity].
Qed.

Lemma trim_between (a b : N) (s : jsstring) :
  isWhiteSpace a = false -> isWhiteSpace b = false ->
  trim ((a :: s) ++ [b]) = (a :: s) ++ [b].
Proof.
  intros Ha Hb. unfold trim.
  change ((a :: s) ++ [b]) with (a :: (s ++ [b])).
  rewrite (trimStart_id a _ Ha).
  change (a :: (s ++ [b])) with ((a :: s) ++ [b]).
  now apply trimEnd_id.
Qed.

(** Content that opens and closes with backquotes is left alone by
    [trim]. *)
Lemma trim_fenced (opening c : jsstring) :
  trim ((96%N :: opening) ++ c ++ js "```") = (96%N :: opening) ++ c ++ js "```".
Proof.
  change (js "```") with ([96%N; 96%N] ++ [96%N]).
  rewrite !app_assoc. rewrite <- app_comm_cons.
  apply trim_between; reflexivity.
Qed.

Lemma strip_fence_json (c : jsstring) :
  strip_fence (js "```json" ++ c ++ js "```") = c.
Proof.
  unfold strip_fence. rewrite startsWith_app.
  rewrite replace_prefix_app. apply replace_suffix_app.
Qed.

Lemma strip_fence_bare (x : N) (r : jsstring) :
  x <> 106%N ->
  strip_fence (js "```" ++ (x :: r) ++ js "```") = x :: r.
Proof.
  intros Hx. unfold strip_fence.
  assert (E : startsWith (js "```" ++ (x :: r) ++ js "```") (js "```json") = false).
  { apply N.eqb_neq in Hx.
    change (js "```json") with [96; 96; 96; 106; 115; 111; 110]%N.
    change (js "```") with [96; 96; 96]%N. simpl. now rewrite Hx. }
  rewrite E, startsWith_app.
  rewrite replace_prefix_app. apply replace_suffix_app.
Qed.

Lemma strip_fence_none (s : jsstring) :
  startsWith s (js "```") = false -> strip_fence s = s.
Proof.
  intros H. unfold strip_fence.
  change (js "```json") with (js "```" ++ js "json").
  now rewrite (startsWith_app_false s _ (js "json") H), H.
Qed.

Section Fence.

Variable W : World.

(** The adapter parses what is between the markers of a [```json] fence,
    whatever it is. *)
Lemma parse_content_json_fence (c : jsstring) :
  parse_content W (Some (JString (js "```json" ++ c ++ js "```")))
  = JSON_parse_or_throw W c.
Proof.
  unfold parse_content.
  change (js "```json") with (96%N :: js "``json").
  rewrite trim_fenced.
  change (96%N :: js "``json") with (js "```json").
  now rewrite strip_fence_json.
Qed.

(** Content that does not start with a fence goes to the parser as
    [trim] leaves it. *)
Lemma parse_content_no_fence (s : jsstring) :
  startsWith (trim s) (js "```") = false ->
  parse_content W (Some (JString s)) = JSON_parse_or_throw W (trim s).
Proof.
  intros H. unfold parse_content. now rewrite strip_fence_none.
Qed.

(** C1. For every JSON text [c], the content made of [c] between a
    leading [```json] (or bare [```]) marker and a trailing [```] marker
    is parsed to the value [c] itself parses to, and so is [c] given
    without a fence. *)
Theorem fence_stripping_preserves_parse (c : jsstring) (v : json) :
  JSON_parse c = Some v ->
  parse_content W (Some (JString (js "```json" ++ c ++ js "```"))) = ret v
  /\ parse_content W (Some (JString (js "```" ++ c ++ js "```"))) = ret v
  /\ parse_content W (Some (JString c)) = ret v.
Proof.
  intros Hc. split; [|split].
  - rewrite parse_content_json_fence.
    unfold JSON_parse_or_throw. now rewrite Hc.
  - destruct (JSON_parse_first c v Hc) as [x [r [-> [_ Hx]]]].
    unfold parse_content.
    change (js "```") with (96%N :: js "``") at 1.
    rewrite trim_fenced.
    change (96%N :: js "``") with (js "```").
    rewrite (strip_fence_bare x r Hx).
    unfold JSON_parse_or_throw. now rewrite Hc.
  - pose proof (JSON_parse_trim c v Hc) as Ht.
    destruct (JSON_parse_first _ _ Ht) as [x [r [E [Hx _]]]].
    rewrite parse_content_no_fence.
    + unfold JSON_parse_or_throw. now rewrite Ht.
    + rewrite E. change (js "```") with [96; 96; 96]%N. simpl.
      apply N.eqb_neq in Hx. now rewrite Hx.
Qed.

End Fence.

(* ================================================================== *)
(** ** What the adapters do, step by step *)
(* ================================================================== *)

Lemma falsy_string_nonempty (s : jsstring) : s <> [] -> falsy_string s = false.
Proof. destruct s; [congruence | reflexivity]. Qed.

Lemma falsy_string_true (s : jsstring) : falsy_string s = true -> s = [].
Proof. destruct s; [reflexivity | discriminate]. Qed.

Section Adapters.

Variable W : World.

Lemma generateWithOpenAI_no_key goalText settings dateStr :
  apiKey settings = [] ->
  generateWithOpenAI W goalText settings dateStr
  = throw (Error (js "API Key (sk-...) is required for this provider.")).
Proof. intros H. unfold generateWithOpenAI. rewrite H. reflexivity. Qed.

Lemma generateWithOpenAI_rejected goalText settings dateStr e :
  apiKey settings <> [] ->
  fetch W (openai_request goalText settings dateStr) = inl e ->
  generateWithOpenAI W goalText settings dateStr
  = ([EvFetch (openai_request goalText settings dateStr);
      EvConsoleError openai_label e], inl e).
Proof.
  intros Hk Hf. unfold generateWithOpenAI.
  rewrite (falsy_string_nonempty _ Hk).
  unfold do_fetch, bind, emit, try_catch, throw. rewrite Hf. reflexivity.
Qed.

Lemma generateWithOpenAI_not_ok goalText settings dateStr response :
  apiKey settings <> [] ->
  fetch W (openai_request goalText settings dateStr) = inr response ->
  ok response = false ->
  generateWithOpenAI W goalText settings dateStr
  = ([EvFetch (openai_request goalText settings dateStr);
      EvConsoleError openai_label (Error (request_failed_message response))],
     inl (Error (request_failed_message response))).
Proof.
  intros Hk Hf Hok. unfold generateWithOpenAI.
  rewrite (falsy_string_nonempty _ Hk).
  unfold do_fetch, bind, emit, try_catch, throw. rewrite Hf, Hok. reflexivity.
Qed.

(** With an ok response whose first choice carries the non-empty string
    [content], the adapter is the parse of the cleaned content. *)
Lemma generateWithOpenAI_content goalText settings dateStr response data content :
  apiKey settings <> [] ->
  fetch W (openai_request goalText settings dateStr) = inr response ->
  ok response = true ->
  JSON_parse (body response) = Some data ->
  first_choice_content W data = ret (Some (JString content)) ->
  content <> [] ->
  generateWithOpenAI W goalText settings dateStr
  = match JSON_parse (strip_fence (trim content)) with
    | Some v => ([EvFetch (openai_request goalText settings dateStr)], inr v)
    | None =>
        ([EvFetch (openai_request goalText settings dateStr);
          EvConsoleError openai_label (SyntaxError W (strip_fence (trim content)))],
         inl (SyntaxError W (strip_fence (trim content))))
    end.
Proof.
  intros Hk Hf Hok Hd Hc Hne. unfold generateWithOpenAI.
  rewrite (falsy_string_nonempty _ Hk).
  unfold do_fetch, response_json, JSON_parse_or_throw.
  unfold bind at 1 2. unfold emit. rewrite Hf, Hok.
  cbn [negb app]. rewrite Hd. unfold bind at 1. unfold ret at 1.
  rewrite Hc. unfold bind at 1. unfold ret at 1.
  cbn [falsy]. rewrite (falsy_string_nonempty _ Hne).
  unfold parse_content, JSON_parse_or_throw.
  destruct (JSON_parse (strip_fence (trim content))); reflexivity.
Qed.

Lemma generateWithGemini_no_key goalText settings dateStr :
  apiKey settings = [] ->
  falsy_opt_string (process_env_API_KEY W) = true ->
  generateWithGemini W goalText settings dateStr
  = throw (Error (js "Gemini API Key is missing.")).
Proof.
  intros Hk He. unfold generateWithGemini, gemini_apiKeyToUse. rewrite Hk.
  cbn [falsy_string].
  destruct (process_env_API_KEY W) as [k|]; [|reflexivity].
  cbn [falsy_opt_string] in He. rewrite He. reflexivity.
Qed.

(** With a key to use, the adapter makes its one call and goes by what
    comes back. *)
Lemma generateWithGemini_key goalText settings dateStr key :
  gemini_apiKeyToUse W settings = Some key ->
  key <> [] ->
  generateWithGemini W goalText settings dateStr
  = ([EvGenerateContent (gemini_request goalText settings dateStr key)],
     match generateContent W (gemini_request goalText settings dateStr key) with
     | inl e => inl e
     | inr None => inl (Error (js "No response from Gemini"))
     | inr (Some text) =>
         if falsy_string text then inl (Error (js "No response from Gemini"))
         else match JSON_parse text with
              | Some v => inr v
              | None => inl (SyntaxError W text)
              end
     end).
Proof.
  intros Hu Hk. unfold generateWithGemini. rewrite Hu.
  rewrite (falsy_string_nonempty _ Hk).
  unfold do_generateContent, bind, emit, throw, JSON_parse_or_throw, ret.
  destruct (generateContent W _) as [e|[text|]]; try reflexivity.
  destruct (falsy_string text); [reflexivity|].
  destruct (JSON_parse text); reflexivity.
Qed.

End Adapters.

(* ================================================================== *)
(** ** The claims of the specification *)
(* ================================================================== *)

Import Examples.

(** The fence theorem at the plan of the scenario. *)
Lemma fence_stripping_example :
  JSON_parse plan_text = Some plan_value
  /\ parse_content (mock (inl unreachable) (inl unreachable) None)
       (Some (JString (js "```json" ++ plan_text ++ js "```"))) = ret plan_value
  /\ parse_content (mock (inl unreachable) (inl unreachable) None)
       (Some (JString (js "```" ++ plan_text ++ js "```"))) = ret plan_value
  /\ parse_content (mock (inl unreachable) (inl unreachable) None)
       (Some (JString plan_text)) = ret plan_value.
Proof.
  split; [vm_compute; reflexivity|].
  apply (fence_stripping_preserves_parse
           (mock (inl unreachable) (inl unreachable) None) plan_text plan_value).
  vm_compute; reflexivity.
Defined.

(** C2, as stated, fails: a payload that is JSON but not a plan is
    returned, not refused.  The Gemini adapter returns the empty object
    it is sent, and the OpenAI adapter does the same. *)
Lemma nonconformant_payload_is_returned :
  JSON_parse (js "{}") = Some (JObject [])
  /\ is_ApiWeeklyPlanResponse (JObject []) = false
  /\ outcome (generateWithGemini
                (mock (inl unreachable) (inr (Some (js "{}"))) None)
                goal (gemini_settings (js "key")) today)
     = inr (JObject [])
  /\ outcome (generateWithOpenAI
                (mock (inr (mkResponse 200 (js "OK") fenced_completion))
                      (inl unreachable) None)
                goal (openai_settings (js "sk-1") None) today)
     = inr (JObject []).
Proof. vm_compute. repeat split; reflexivity. Qed.

(** C2, amended.  When the backend returns a non-empty text, the call is
    decided by [JSON.parse] alone: the Gemini adapter parses the text as
    it is, the OpenAI adapter parses the content after [trim] and the
    removal of the fence; text that does not parse makes the call fail
    with the parser's SyntaxError, text that parses makes the call
    return the parsed value, whether or not it has the shape of a
    plan. *)
Theorem generate_is_decided_by_parse
    (W : World) (goalText : jsstring) (settings : AppSettings) (dateStr : jsstring) :
  (forall key text,
      gemini_apiKeyToUse W settings = Some key ->
      key <> [] ->
      generateContent W (gemini_request goalText settings dateStr key)
      = inr (Some text) ->
      text <> [] ->
      outcome (generateWithGemini W goalText settings dateStr)
      = match JSON_parse text with
        | Some v => inr v
        | None => inl (SyntaxError W text)
        end)
  /\ (forall response data content,
      apiKey settings <> [] ->
      fetch W (openai_request goalText settings dateStr) = inr response ->
      ok response = true ->
      JSON_parse (body response) = Some data ->
      first_choice_content W data = ret (Some (JString content)) ->
      content <> [] ->
      outcome (generateWithOpenAI W goalText settings dateStr)
      = match JSON_parse (strip_fence (trim content)) with
        | Some v => inr v
        | None => inl (SyntaxError W (strip_fence (trim content)))
        end).
Proof.
  split.
  - intros key text Hu Hk Hg Ht.
    rewrite (generateWithGemini_key W goalText settings dateStr key Hu Hk).
    unfold outcome, snd. rewrite Hg, (falsy_string_nonempty _ Ht). reflexivity.
  - intros response data content Hk Hf Hok Hd Hc Hne.
    rewrite (generateWithOpenAI_content W goalText settings dateStr
               response data content Hk Hf Hok Hd Hc Hne).
    destruct (JSON_parse (strip_fence (trim content))); reflexivity.
Qed.

Lemma generate_is_decided_by_parse_example :
  outcome (generateWithGemini
             (mock (inr (mkResponse 200 (js "OK") prose_completion))
                   (inr (Some plan_text)) None)
             goal (gemini_settings (js "key")) today)
  = inr plan_value
  /\ outcome (generateWithOpenAI
                (mock (inr (mkResponse 200 (js "OK") prose_completion))
                      (inr (Some plan_text)) None)
                goal (gemini_settings (js "key")) today)
     = inl (SyntaxError
              (mock (inr (mkResponse 200 (js "OK") prose_completion))
                    (inr (Some plan_text)) None)
              (js "Sorry, no plan today.")).
Proof.
  destruct (generate_is_decided_by_parse
              (mock (inr (mkResponse 200 (js "OK") prose_completion))
                    (inr (Some plan_text)) None)
              goal (gemini_settings (js "key")) today) as [HG HO].
  split.
  - rewrite (HG (js "key") plan_text);
      [vm_compute; reflexivity | reflexivity | vm_compute; discriminate
      | reflexivity | vm_compute; discriminate].
  - rewrite (HO (mkResponse 200 (js "OK") prose_completion)
               (JObject [(js "choices",
                  JArray [JObject [(js "message",
                    JObject [(js "content", JString (js "Sorry, no plan today."))])]])])
               (js "Sorry, no plan today."));
      [vm_compute; reflexivity | vm_compute; discriminate | reflexivity
      | reflexivity | vm_compute; reflexivity | vm_compute; reflexivity
      | vm_compute; discriminate].
Defined.

(** C3. A settings object whose time zone Intl refuses makes the
    dispatcher fail with the RangeError of the constructor, as a
    rejected promise: neither adapter runs and nothing is sent. *)
Theorem invalid_timezone_rejects
    (W : World) (goalText : jsstring) (settings : AppSettings) :
  Intl_DateTimeFormat W (timezone settings) = None ->
  generateWeeklyPlan W goalText settings
  = throw (RangeError W (timezone settings)).
Proof. intros H. unfold generateWeeklyPlan. rewrite H. reflexivity. Qed.

Lemma invalid_timezone_example :
  generateWeeklyPlan (mock (inl unreachable) (inr (Some plan_text)) None) goal
    (mkAppSettings (js "gemini") (js "key") (js "gemini-2.5-flash")
       (js "Mars/Phobos") None)
  = throw (RangeError (mock (inl unreachable) (inr (Some plan_text)) None)
             (js "Mars/Phobos")).
Proof.
  apply (invalid_timezone_rejects
           (mock (inl unreachable) (inr (Some plan_text)) None) goal
           (mkAppSettings (js "gemini") (js "key") (js "gemini-2.5-flash")
              (js "Mars/Phobos") None)).
  vm_compute; reflexivity.
Defined.

(** C4, as stated, fails for the Gemini adapter: with an empty key in the
    settings and a key in the process environment it calls the SDK and
    returns the plan. *)
Lemma empty_key_gemini_falls_back :
  apiKey (gemini_settings []) = []
  /\ network_calls
       (trace (generateWithGemini
                 (mock (inl unreachable) (inr (Some plan_text)) (Some (js "env-key")))
                 goal (gemini_settings []) today))
     = [EvGenerateContent
          (gemini_request goal (gemini_settings []) today (js "env-key"))]
  /\ outcome (generateWithGemini
                (mock (inl unreachable) (inr (Some plan_text)) (Some (js "env-key")))
                goal (gemini_settings []) today)
     = inr plan_value.
Proof. vm_compute. repeat split; reflexivity. Qed.

(** C4, amended.  With an empty apiKey the OpenAI adapter, the Gemini
    probe and both verification handlers fail on the missing key before
    anything is sent; the Gemini adapter does so when the process
    environment holds no key either. *)
Theorem empty_key_fails_before_network
    (W : World) (goalText : jsstring) (settings : AppSettings)
    (dateStr : jsstring) (s : ModalState) :
  apiKey settings = [] ->
  apiKey (formData s) = [] ->
  generateWithOpenAI W goalText settings dateStr
  = throw (Error (js "API Key (sk-...) is required for this provider."))
  /\ validateGeminiConnection W (apiKey settings)
     = throw (Error (js "请输入 API Key"))
  /\ handleVerifyOpenAI W s
     = ([], setStatusMessage (js "请先输入 API Key") (setConnectionStatus error s))
  /\ handleVerifyGemini W s
     = ([], setStatusMessage (js "请先输入 API Key") (setConnectionStatus error s))
  /\ (falsy_opt_string (process_env_API_KEY W) = true ->
      generateWithGemini W goalText settings dateStr
      = throw (Error (js "Gemini API Key is missing."))).
Proof.
  intros Hk Hs. split; [|split; [|split; [|split]]].
  - now apply generateWithOpenAI_no_key.
  - unfold validateGeminiConnection. rewrite Hk. reflexivity.
  - unfold handleVerifyOpenAI. rewrite Hs. reflexivity.
  - unfold handleVerifyGemini. rewrite Hs. reflexivity.
  - intros He. now apply generateWithGemini_no_key.
Qed.

Lemma empty_key_example :
  generateWithOpenAI (mock (inl unreachable) (inr (Some plan_text)) None)
    goal (openai_settings [] None) today
  = throw (Error (js "API Key (sk-...) is required for this provider."))
  /\ generateWithGemini (mock (inl unreachable) (inr (Some plan_text)) None)
       goal (openai_settings [] None) today
     = throw (Error (js "Gemini API Key is missing.")).
Proof.
  destruct (empty_key_fails_before_network
              (mock (inl unreachable) (inr (Some plan_text)) None)
              goal (openai_settings [] None) today
              (modal (openai_settings [] None)) eq_refl eq_refl)
    as [H1 [_ [_ [_ H5]]]].
  split; [exact H1 | apply H5; reflexivity].
Defined.

(** The base URL of the adapter, case by case, and that of the probe. *)
Lemma openai_baseUrl_cases (settings : AppSettings) :
  (forall u, baseUrl settings = Some (u ++ js "/") -> openai_baseUrl settings = u)
  /\ (forall u c, baseUrl settings = Some (u ++ [c]) -> c <> 47%N ->
      openai_baseUrl settings = u ++ [c])
  /\ (baseUrl settings = None \/ baseUrl settings = Some [] ->
      openai_baseUrl settings = js "https://api.openai.com/v1")
  /\ verify_baseUrl settings = openai_baseUrl settings.
Proof.
  split; [|split; [|split]].
  - intros u H. unfold openai_baseUrl. rewrite H.
    change (js "/") with [47%N].
    assert (E : falsy_string (u ++ [47%N]) = false) by (destruct u; reflexivity).
    rewrite E, endsWith_last, N.eqb_refl. apply slice_0_m1_app.
  - intros u c H Hc. unfold openai_baseUrl. rewrite H.
    change (js "/") with [47%N].
    assert (E : falsy_string (u ++ [c]) = false) by (destruct u; reflexivity).
    rewrite E, endsWith_last. apply N.eqb_neq in Hc. rewrite Hc. reflexivity.
  - intros [H|H]; unfold openai_baseUrl; rewrite H; reflexivity.
  - unfold verify_baseUrl, openai_baseUrl, DEFAULT_OPENAI_BASE_URL. reflexivity.
Qed.

(** C8. The key in the request the Gemini adapter hands to the SDK is
    the configured apiKey when it is not empty and the key of the
    process environment otherwise, and the adapter fails on the missing
    key, before anything is sent, exactly when the configured key is
    empty and the environment holds no key. *)
Theorem gemini_effective_key
    (W : World) (goalText : jsstring) (settings : AppSettings) (dateStr : jsstring) :
  (apiKey settings <> [] ->
   trace (generateWithGemini W goalText settings dateStr)
   = [EvGenerateContent (gemini_request goalText settings dateStr (apiKey settings))]
   /\ sdk_apiKey (gemini_request goalText settings dateStr (apiKey settings))
      = apiKey settings)
  /\ (forall k, apiKey settings = [] -> process_env_API_KEY W = Some k -> k <> [] ->
      trace (generateWithGemini W goalText settings dateStr)
      = [EvGenerateContent (gemini_request goalText settings dateStr k)]
      /\ sdk_apiKey (gemini_request goalText settings dateStr k) = k)
  /\ (generateWithGemini W goalText settings dateStr
      = throw (Error (js "Gemini API Key is missing."))
      <-> apiKey settings = []
          /\ falsy_opt_string (process_env_API_KEY W) = true).
Proof.
  split; [|split].
  - intros Hk. split; [|unfold gemini_request; cbn [sdk_apiKey]; reflexivity].
    rewrite (generateWithGemini_key W goalText settings dateStr (apiKey settings));
      [reflexivity | | assumption].
    unfold gemini_apiKeyToUse. rewrite (falsy_string_nonempty _ Hk). reflexivity.
  - intros k Hk He Hne.
    split; [|unfold gemini_request; cbn [sdk_apiKey]; reflexivity].
    rewrite (generateWithGemini_key W goalText settings dateStr k);
      [reflexivity | | assumption].
    unfold gemini_apiKeyToUse. rewrite Hk. exact He.
  - split.
    + intros H.
      destruct (apiKey settings) as [|c r] eqn:Hk.
      * split; [reflexivity|].
        destruct (process_env_API_KEY W) as [k|] eqn:He; [|reflexivity].
        destruct k as [|c r]; [reflexivity|]. exfalso.
        rewrite (generateWithGemini_key W goalText settings dateStr (c :: r)) in H;
          [discriminate H | | discriminate].
        unfold gemini_apiKeyToUse. rewrite Hk. exact He.
      * exfalso.
        rewrite (generateWithGemini_key W goalText settings dateStr (c :: r)) in H;
          [discriminate H | | discriminate].
        unfold gemini_apiKeyToUse. rewrite Hk. reflexivity.
    + intros [Hk He]. now apply generateWithGemini_no_key.
Qed.

Lemma gemini_effective_key_example :
  exists r,
    trace (generateWithGemini
             (mock (inl unreachable) (inr (Some plan_text)) (Some (js "env-key")))
             goal (gemini_settings []) today)
    = [EvGenerateContent r]
    /\ sdk_apiKey r = js "env-key".
Proof.
  exists (gemini_request goal (gemini_settings []) today (js "env-key")).
  apply (proj1 (proj2 (gemini_effective_key
           (mock (inl unreachable) (inr (Some plan_text)) (Some (js "env-key")))
           goal (gemini_settings []) today)) (js "env-key"));
    [reflexivity | reflexivity | vm_compute; discriminate].
Defined.

(** C10. Once the date is formatted, the dispatcher hands the call to
    the OpenAI adapter when the provider is the string openai and to the
    Gemini adapter for every other provider value. *)
Theorem dispatch_by_provider
    (W : World) (goalText : jsstring) (settings : AppSettings)
    (formatter : Z -> jsstring) :
  Intl_DateTimeFormat W (timezone settings) = Some formatter ->
  (provider settings <> js "openai" ->
   generateWeeklyPlan W goalText settings
   = generateWithGemini W goalText settings (formatter (Date_now W)))
  /\ (provider settings = js "openai" ->
      generateWeeklyPlan W goalText settings
      = generateWithOpenAI W goalText settings (formatter (Date_now W))).
Proof.
  intros Hf. unfold generateWeeklyPlan. rewrite Hf. unfold streq.
  split; intros Hp;
    destruct (list_eq_dec N.eq_dec (provider settings) (js "openai"));
    solve [reflexivity | contradiction].
Qed.

Lemma dispatch_by_provider_example :
  generateWeeklyPlan (mock (inl unreachable) (inr (Some plan_text)) None) goal
    (mkAppSettings (js "OpenAI") (js "key") (js "m") (js "Asia/Shanghai") None)
  = generateWithGemini (mock (inl unreachable) (inr (Some plan_text)) None) goal
      (mkAppSettings (js "OpenAI") (js "key") (js "m") (js "Asia/Shanghai") None)
      today.
Proof.
  apply (proj1 (dispatch_by_provider
           (mock (inl unreachable) (inr (Some plan_text)) None) goal
           (mkAppSettings (js "OpenAI") (js "key") (js "m") (js "Asia/Shanghai") None)
           (fun _ => js "2025年1月1日星期三") eq_refl)).
  vm_compute; discriminate.
Defined.

Lemma not_In_existsb (c : N) (l : jsstring) :
  existsb (N.eqb c) l = false -> ~ In c l.
Proof.
  intros H Hin.
  assert (E : existsb (N.eqb c) l = true).
  { apply existsb_exists. exists c. split; [assumption | apply N.eqb_refl]. }
  congruence.
Qed.

Lemma In_existsb (c : N) (l : jsstring) :
  existsb (N.eqb c) l = true -> In c l.
Proof.
  intros H. apply existsb_exists in H as [x [Hx E]].
  apply N.eqb_eq in E. now subst.
Qed.

Lemma fetch_models_not_ok (W : World) (formData : AppSettings) (response : Response) :
  fetch W (models_request formData) = inr response ->
  ok response = false ->
  fetch_models W formData
  = ([EvFetch (models_request formData)],
     inl (Error (js "HTTP " ++ of_N (status response)))).
Proof.
  intros Hf Hok. unfold fetch_models, do_fetch, bind, emit, throw.
  rewrite Hf, Hok. reflexivity.
Qed.

(** C7. A response whose status is not in the 200 range makes the
    OpenAI adapter fail with an error whose message includes the status
    code and the text of the body, and makes the models probe end in the
    error state with a message that includes the status code.  Each
    sends its one request and no other. *)
Theorem non_success_status_is_reported
    (W : World) (goalText : jsstring) (settings : AppSettings)
    (dateStr : jsstring) (s : ModalState) :
  (forall response,
      apiKey settings <> [] ->
      fetch W (openai_request goalText settings dateStr) = inr response ->
      ok response = false ->
      exists message,
        outcome (generateWithOpenAI W goalText settings dateStr)
        = inl (Error message)
        /\ includes message (of_N (status response)) = true
        /\ includes message (body response) = true
        /\ network_calls (trace (generateWithOpenAI W goalText settings dateStr))
           = [EvFetch (openai_request goalText settings dateStr)])
  /\ (forall response,
      apiKey (formData s) <> [] ->
      fetch W (models_request (formData s)) = inr response ->
      ok response = false ->
      connectionStatus (snd (handleVerifyOpenAI W s)) = error
      /\ statusMessage (snd (handleVerifyOpenAI W s))
         = js "HTTP " ++ of_N (status response)
      /\ includes (statusMessage (snd (handleVerifyOpenAI W s)))
           (of_N (status response)) = true
      /\ network_calls (fst (handleVerifyOpenAI W s))
         = [EvFetch (models_request (formData s))]).
Proof.
  split.
  - intros response Hk Hf Hok.
    exists (request_failed_message response).
    rewrite (generateWithOpenAI_not_ok W goalText settings dateStr response Hk Hf Hok).
    split; [reflexivity|]. split; [|split; [|reflexivity]].
    + unfold request_failed_message. apply includes_app.
    + unfold request_failed_message.
      rewrite !app_assoc. apply includes_suffix.
  - intros response Hk Hf Hok.
    assert (E : handleVerifyOpenAI W s
                = ([EvFetch (models_request (formData s));
                    EvConsoleError (js "Fetch models error:")
                      (Error (js "HTTP " ++ of_N (status response)))],
                   setIsLoading false
                     (setStatusMessage (js "HTTP " ++ of_N (status response))
                        (setConnectionStatus error
                           (setStatusMessage (js "正在连接...")
                              (setConnectionStatus idle (setIsLoading true s))))))).
    { unfold handleVerifyOpenAI. rewrite (falsy_string_nonempty _ Hk).
      cbn [formData setStatusMessage setConnectionStatus setIsLoading].
      rewrite (fetch_models_not_ok W (formData s) response Hf Hok).
      cbn [exn_message Error app].
      change (js "HTTP ") with (72%N :: js "TTP "). reflexivity. }
    rewrite E. cbn [snd fst connectionStatus statusMessage setIsLoading
                    setStatusMessage setConnectionStatus].
    split; [reflexivity|]. split; [reflexivity|]. split; [|reflexivity].
    apply includes_suffix.
Qed.

Lemma status_401_example :
  exists message,
    outcome (generateWithOpenAI
               (mock (inr (mkResponse 401 (js "Unauthorized") (js "bad key")))
                     (inl unreachable) None)
               goal (openai_settings (js "sk-1") None) today)
    = inl (Error message)
    /\ includes message (js "401") = true
    /\ includes message (js "bad key") = true
    /\ network_calls
         (trace (generateWithOpenAI
                   (mock (inr (mkResponse 401 (js "Unauthorized") (js "bad key")))
                         (inl unreachable) None)
                   goal (openai_settings (js "sk-1") None) today))
       = [EvFetch (openai_request goal (openai_settings (js "sk-1") None) today)].
Proof.
  apply (proj1 (non_success_status_is_reported
           (mock (inr (mkResponse 401 (js "Unauthorized") (js "bad key")))
                 (inl unreachable) None)
           goal (openai_settings (js "sk-1") None) today
           (modal (openai_settings (js "sk-1") None)))
           (mkResponse 401 (js "Unauthorized") (js "bad key")));
    [vm_compute; discriminate | reflexivity | reflexivity].
Defined.

(** C9, as stated, fails: the goal text is copied into the prompt as it
    is, so a goal text that carries the format block puts it into the
    prompt built for the Gemini backend. *)
Lemma format_block_from_goal_text :
  includes
    (prompt (buildSystemAndUserPrompt today OUTPUT_FORMAT_REQUIREMENTS false))
    OUTPUT_FORMAT_REQUIREMENTS = true.
Proof. vm_compute. reflexivity. Qed.

(** C9, amended.  The user prompt built for the OpenAI backends is the
    one built for Gemini followed by the format block, which names the
    fields refinedGoal, schedule, dayName, tasks and contentIdeas and
    asks for the raw JSON string only.  So the prompt includes the block
    when the flag is true, and when the flag is false it can include it
    only if the date string or the goal text holds an opening brace.
    The builder is a function of its three arguments. *)
Theorem format_block_iff_flag (dateStr goalText : jsstring) (isOpenAI : bool) :
  prompt (buildSystemAndUserPrompt dateStr goalText true)
  = prompt (buildSystemAndUserPrompt dateStr goalText false)
    ++ OUTPUT_FORMAT_REQUIREMENTS
  /\ (isOpenAI = true ->
      includes (prompt (buildSystemAndUserPrompt dateStr goalText isOpenAI))
        OUTPUT_FORMAT_REQUIREMENTS = true)
  /\ (includes (prompt (buildSystemAndUserPrompt dateStr goalText isOpenAI))
        OUTPUT_FORMAT_REQUIREMENTS = true ->
      isOpenAI = true \/ In 123%N dateStr \/ In 123%N goalText)
  /\ forallb (includes OUTPUT_FORMAT_REQUIREMENTS)
       [dq ++ js "refinedGoal" ++ dq; dq ++ js "schedule" ++ dq;
        dq ++ js "dayName" ++ dq; dq ++ js "tasks" ++ dq;
        dq ++ js "contentIdeas" ++ dq; js "Just the raw JSON string."] = true.
Proof.
  split; [reflexivity|]. split; [|split].
  - intros ->. cbn [buildSystemAndUserPrompt prompt].
    apply includes_suffix.
  - destruct isOpenAI; [now left|]. intros H. right.
    assert (Hb : In 123%N OUTPUT_FORMAT_REQUIREMENTS).
    { apply In_existsb. vm_compute. reflexivity. }
    pose proof (includes_In _ _ 123%N H Hb) as Hin. clear H Hb.
    cbn [buildSystemAndUserPrompt prompt] in Hin.
    repeat (apply in_app_or in Hin; destruct Hin as [Hin|Hin];
            [ first [ exfalso; revert Hin; apply not_In_existsb;
                      vm_compute; reflexivity
                    | tauto ] | ]).
    exfalso; revert Hin; apply not_In_existsb; vm_compute; reflexivity.
  - vm_compute. reflexivity.
Qed.

Lemma format_block_example :
  includes (prompt (buildSystemAndUserPrompt today goal true))
    OUTPUT_FORMAT_REQUIREMENTS = true.
Proof.
  apply (proj1 (proj2 (format_block_iff_flag today goal true))). reflexivity.
Defined.

(* ================================================================== *)
(** ** The list of models *)
(* ================================================================== *)

Section Models.

Variable W : World.

(** What the specification of [localeCompare] asks of an engine: a
    consistent comparator, total and transitive on strings. *)
Hypothesis collation_total :
  forall a b, (0 <= localeCompare W a (Some (JString b)))%Z -> collates_before W b a.
Hypothesis collation_trans :
  forall a b c, collates_before W a b -> collates_before W b c -> collates_before W a c.

Lemma map_to_option_ids (items : list json) (ids : list jsstring) :
  Forall2 (fun m id => prop m (js "id") = Some (JString id)) items ids ->
  map_to_option W items = inr (map option_of_id ids).
Proof.
  induction 1 as [|m id items ids Hm _ IH]; [reflexivity|].
  cbn [map_to_option map]. rewrite IH.
  unfold to_option. destruct m; try discriminate Hm.
  rewrite Hm. reflexivity.
Qed.

Lemma StronglySorted_snoc (R : jsstring -> jsstring -> Prop)
    (l : list jsstring) (a : jsstring) :
  StronglySorted R l -> Forall (fun z => R z a) l -> StronglySorted R (l ++ [a]).
Proof.
  induction 1 as [|b l Hl IH Hb]; intros Ha; simpl.
  - constructor; constructor.
  - inversion Ha; subst. constructor; [now apply IH|].
    apply Forall_app. split; [assumption | now constructor].
Qed.

Lemma StronglySorted_rev (R : jsstring -> jsstring -> Prop) (l : list jsstring) :
  StronglySorted (fun a b => R b a) l -> StronglySorted R (rev l).
Proof.
  induction 1 as [|a l Hl IH Ha]; simpl; [constructor|].
  apply StronglySorted_snoc; [exact IH|].
  rewrite Forall_forall in *. intros z Hz. apply Ha. now apply in_rev.
Qed.

(** A later id goes into the ids sorted so far, held last first. *)
Lemma insert_option_ids (x : jsstring) (l : list jsstring) :
  StronglySorted (fun a b => collates_before W b a) l ->
  exists l',
    insert_option W (option_of_id x) (map option_of_id l)
    = inr (map option_of_id l')
    /\ Permutation (x :: l) l'
    /\ StronglySorted (fun a b => collates_before W b a) l'.
Proof.
  induction l as [|y r IH]; intros Hs.
  - exists [x]. repeat split; auto. constructor; constructor.
  - inversion Hs as [|? ? Hr Hy]; subst.
    cbn [map insert_option]. unfold compare_options.
    cbn [option_of_id value].
    destruct (Z.ltb_spec (localeCompare W x (Some (JString y))) 0) as [Hlt|Hge].
    + destruct (IH Hr) as [l' [E [P S]]].
      change (insert_option W {| value := Some (JString x); label := Some (JString x) |}
                (map option_of_id r))
        with (insert_option W (option_of_id x) (map option_of_id r)).
      rewrite E. exists (y :: l'). split; [reflexivity|]. split.
      * apply perm_trans with (y :: x :: r); [apply perm_swap|].
        now apply perm_skip.
      * constructor; [assumption|].
        apply (Permutation_Forall P). constructor; [|assumption].
        unfold collates_before. lia.
    + exists (x :: y :: r). split; [reflexivity|]. split; [apply Permutation_refl|].
      constructor; [assumption|].
      assert (Hyx : collates_before W y x) by now apply collation_total.
      constructor; [exact Hyx|].
      rewrite Forall_forall in *. intros z Hz.
      apply (collation_trans z y x); [now apply Hy | exact Hyx].
Qed.

Lemma sort_from_ids (l s : list jsstring) :
  StronglySorted (fun a b => collates_before W b a) s ->
  exists l',
    sort_from W (map option_of_id s) (map option_of_id l)
    = inr (map option_of_id l')
    /\ Permutation (s ++ l) l'
    /\ StronglySorted (collates_before W) l'.
Proof.
  revert s; induction l as [|x r IH]; intros s Hs.
  - exists (rev s). cbn [map sort_from]. rewrite map_rev.
    split; [reflexivity|]. split.
    + rewrite app_nil_r. apply Permutation_rev.
    + now apply StronglySorted_rev.
  - cbn [map sort_from].
    destruct (insert_option_ids x s Hs) as [s' [E [P S]]]. rewrite E.
    destruct (IH s' S) as [l' [E' [P' S']]].
    exists l'. split; [exact E'|]. split; [|exact S'].
    apply perm_trans with (s' ++ r); [|exact P'].
    apply perm_trans with ((x :: s) ++ r).
    + symmetry. apply Permutation_middle.
    + now apply Permutation_app_tail.
Qed.

(** Descriptors with string ids come out as the entries of their ids in
    ascending collation order. *)
Lemma sort_options_ids (l : list jsstring) :
  exists l',
    sort_options W (map option_of_id l) = inr (map option_of_id l')
    /\ Permutation l l'
    /\ StronglySorted (collates_before W) l'.
Proof.
  exact (sort_from_ids l [] (SSorted_nil _)).
Qed.

Lemma fetch_models_ok (formData : AppSettings) (response : Response)
    (data : json) (items : list json) :
  fetch W (models_request formData) = inr response ->
  ok response = true ->
  JSON_parse (body response) = Some data ->
  prop data (js "data") = Some (JArray items) ->
  fetch_models W formData
  = ([EvFetch (models_request formData)],
     match modelsFromApi W items with
     | inl e => inl e
     | inr models =>
         if (List.length models =? 0)%nat then inl (Error (js "未找到模型"))
         else inr models
     end).
Proof.
  intros Hf Hok Hd Hp.
  unfold fetch_models, do_fetch, response_json, JSON_parse_or_throw.
  unfold bind at 1 2. unfold emit. rewrite Hf, Hok. cbn [negb app].
  rewrite Hd. unfold bind at 1. unfold ret at 1.
  assert (Hfalsy : falsy (Some data) = false).
  { destruct data; try discriminate Hp. reflexivity. }
  rewrite Hfalsy, Hp. unfold bind, ret, throw.
  destruct (modelsFromApi W items) as [e|models]; [reflexivity|].
  destruct (List.length models =? 0)%nat; reflexivity.
Qed.

(** C5, amended.  When the models endpoint answers with a body whose
    [data] array holds descriptors with string ids, the probe keeps one
    entry per descriptor, value and label both the id, in ascending
    order of the ids under localeCompare, the collation of the locale
    and not the lexicographic order of the code units; when the array is
    empty the probe ends in the error state, with the message that no
    model was found, although the response was ok. *)
Theorem models_are_listed_in_order
    (s : ModalState) (response : Response) (data : json)
    (items : list json) (ids : list jsstring) :
  apiKey (formData s) <> [] ->
  fetch W (models_request (formData s)) = inr response ->
  ok response = true ->
  JSON_parse (body response) = Some data ->
  prop data (js "data") = Some (JArray items) ->
  Forall2 (fun m id => prop m (js "id") = Some (JString id)) items ids ->
  (items = [] ->
   connectionStatus (snd (handleVerifyOpenAI W s)) = error
   /\ statusMessage (snd (handleVerifyOpenAI W s)) = js "未找到模型"
   /\ fetchedModels (snd (handleVerifyOpenAI W s)) = fetchedModels s)
  /\ (items <> [] ->
      exists sorted,
        Permutation ids sorted
        /\ StronglySorted (collates_before W) sorted
        /\ fetchedModels (snd (handleVerifyOpenAI W s)) = map option_of_id sorted
        /\ connectionStatus (snd (handleVerifyOpenAI W s)) = success).
Proof.
  intros Hk Hf Hok Hd Hp Hids.
  pose proof (fetch_models_ok (formData s) response data items Hf Hok Hd Hp) as E.
  unfold modelsFromApi in E. rewrite (map_to_option_ids items ids Hids) in E.
  destruct (sort_options_ids ids) as [sorted [Es [P S]]]. rewrite Es in E.
  rewrite length_map in E.
  split.
  - intros ->. inversion Hids; subst.
    apply Permutation_nil in P. subst sorted. cbn [List.length Nat.eqb] in E.
    unfold handleVerifyOpenAI. rewrite (falsy_string_nonempty _ Hk).
    cbn [formData setStatusMessage setConnectionStatus setIsLoading].
    rewrite E. cbn [exn_message Error].
    change (js "未找到模型") with (26410%N :: js "找到模型").
    cbn [falsy_string snd connectionStatus statusMessage fetchedModels
         setIsLoading setStatusMessage setConnectionStatus].
    repeat split.
  - intros Hne. exists sorted. split; [exact P|]. split; [exact S|].
    assert (Hlen : (List.length sorted =? 0)%nat = false).
    { apply Nat.eqb_neq. rewrite <- (Permutation_length P).
      destruct Hids; [congruence | discriminate]. }
    rewrite Hlen in E.
    unfold handleVerifyOpenAI. rewrite (falsy_string_nonempty _ Hk).
    cbn [formData setStatusMessage setConnectionStatus setIsLoading].
    rewrite E.
    cbn [snd connectionStatus fetchedModels setIsLoading setStatusMessage
         setConnectionStatus setFetchedModels].
    split; reflexivity.
Qed.

End Models.

(** The example collation is a consistent comparator. *)
Lemma compare_units_total (a b : jsstring) :
  (0 <= compare_units a b)%Z -> (compare_units b a <= 0)%Z.
Proof.
  revert b; induction a as [|x a IH]; intros [|y b]; simpl; try lia.
  destruct (N.ltb_spec x y); [lia|].
  destruct (N.ltb_spec y x); [lia|]. apply IH.
Qed.

Lemma compare_units_trans (a b c : jsstring) :
  (compare_units a b <= 0)%Z -> (compare_units b c <= 0)%Z ->
  (compare_units a c <= 0)%Z.
Proof.
  revert b c; induction a as [|x a IH]; intros [|y b] [|z c]; simpl; try lia.
  destruct (N.ltb_spec x y), (N.ltb_spec y x), (N.ltb_spec y z),
    (N.ltb_spec z y), (N.ltb_spec x z), (N.ltb_spec z x); try lia.
  apply IH.
Qed.

(** C5, as stated, fails: the list is sorted by localeCompare, which
    collates a before B as the letters come in the alphabet, while in
    lexicographic order of the code units B (66) comes before a (97).
    Sent B and then a, the probe shows a and then B. *)
Lemma models_follow_collation :
  fetchedModels
    (snd (handleVerifyOpenAI
            (collating (inr (mkResponse 200 (js "OK") mixed_case_body)))
            (modal (openai_settings (js "sk-1") None))))
  = map option_of_id [js "a"; js "B"]
  /\ (compare_collated (js "a") (js "B") < 0)%Z
  /\ (compare_units (js "B") (js "a") < 0)%Z.
Proof. vm_compute. repeat split; reflexivity. Qed.

Lemma models_example :
  fetchedModels
    (snd (handleVerifyOpenAI
            (mock (inr (mkResponse 200 (js "OK") models_body)) (inl unreachable) None)
            (modal (openai_settings (js "sk-1") None))))
  = map option_of_id [js "deepseek-chat"; js "gpt-4o"; js "gpt-4o-mini"]
  /\ connectionStatus
       (snd (handleVerifyOpenAI
               (mock (inr (mkResponse 200 (js "OK") no_models_body))
                     (inl unreachable) None)
               (modal (openai_settings (js "sk-1") None))))
     = error.
Proof.
  split.
  - destruct (proj2 (models_are_listed_in_order
        (mock (inr (mkResponse 200 (js "OK") models_body)) (inl unreachable) None)
        compare_units_total compare_units_trans
        (modal (openai_settings (js "sk-1") None))
        (mkResponse 200 (js "OK") models_body)
        (JObject [(js "data",
           JArray [JObject [(js "id", JString (js "gpt-4o"))];
                   JObject [(js "id", JString (js "deepseek-chat"))];
                   JObject [(js "id", JString (js "gpt-4o-mini"))]])])
        [JObject [(js "id", JString (js "gpt-4o"))];
         JObject [(js "id", JString (js "deepseek-chat"))];
         JObject [(js "id", JString (js "gpt-4o-mini"))]]
        [js "gpt-4o"; js "deepseek-chat"; js "gpt-4o-mini"]
        ltac:(vm_compute; discriminate) eq_refl eq_refl
        ltac:(vm_compute; reflexivity) ltac:(vm_compute; reflexivity)
        ltac:(repeat constructor))
        ltac:(discriminate)) as [sorted [_ [_ [E _]]]].
    vm_compute. reflexivity.
  - apply (proj1 (models_are_listed_in_order
        (mock (inr (mkResponse 200 (js "OK") no_models_body)) (inl unreachable) None)
        compare_units_total compare_units_trans
        (modal (openai_settings (js "sk-1") None))
        (mkResponse 200 (js "OK") no_models_body)
        (JObject [(js "data", JArray [])]) [] []
        ltac:(vm_compute; discriminate) eq_refl eq_refl
        ltac:(vm_compute; reflexivity) ltac:(vm_compute; reflexivity)
        ltac:(constructor))
        eq_refl).
Defined.

(* ================================================================== *)
(** ** Further properties of the adapters *)
(* ================================================================== *)

Section AdapterTraces.

Variable W : World.

Lemma openai_trace_shape goalText settings dateStr :
  apiKey settings <> [] ->
  trace (generateWithOpenAI W goalText settings dateStr)
  = EvFetch (openai_request goalText settings dateStr)
    :: match outcome (generateWithOpenAI W goalText settings dateStr) with
       | inl e => [EvConsoleError openai_label e]
       | inr _ => []
       end.
Proof.
  intros Hk. unfold generateWithOpenAI.
  rewrite (falsy_string_nonempty _ Hk).
  match goal with
  | |- context [try_catch ?m _] =>
      assert (Hb : exists r,
                 m = ([EvFetch (openai_request goalText settings dateStr)], r))
  end.
  { unfold do_fetch, response_json, JSON_parse_or_throw, first_choice_content,
      parse_content.
    unfold bind at 1 2. unfold emit.
    destruct (fetch W (openai_request goalText settings dateStr)) as [e|response];
      [eexists; reflexivity|].
    destruct (ok response); cbn [negb app]; [|eexists; reflexivity].
    destruct (JSON_parse (body response)) as [data|]; [|eexists; reflexivity].
    unfold bind at 1. unfold ret at 1.
    destruct data; try (eexists; reflexivity);
      unfold bind, ret, throw;
      match goal with
      | |- context [falsy ?c] => destruct (falsy c); [eexists; reflexivity|]
      end;
      match goal with
      | |- context [match ?c with Some _ => _ | None => _ end] =>
          destruct c as [[| | |content| |]|]; try (eexists; reflexivity)
      end;
      unfold JSON_parse_or_throw, ret, throw;
      destruct (JSON_parse (strip_fence (trim content))); eexists; reflexivity. }
  destruct Hb as [r ->]. destruct r; reflexivity.
Qed.

(** Once the key is there, the OpenAI adapter sends its one request
    whatever happens next, and whatever it then throws is written to the
    console once and thrown on unchanged. *)
Theorem openai_logs_and_rethrows goalText settings dateStr :
  apiKey settings <> [] ->
  trace (generateWithOpenAI W goalText settings dateStr)
  = EvFetch (openai_request goalText settings dateStr)
    :: match outcome (generateWithOpenAI W goalText settings dateStr) with
       | inl e => [EvConsoleError openai_label e]
       | inr _ => []
       end.
Proof.
  intros. apply openai_trace_shape; assumption.
Qed.

Lemma dispatcher_single_call goalText settings :
  (List.length (network_calls (trace (generateWeeklyPlan W goalText settings))) <= 1)%nat.
Proof.
  unfold generateWeeklyPlan.
  destruct (Intl_DateTimeFormat W (timezone settings)) as [formatter|];
    [|cbn; lia].
  destruct (streq (provider settings) (js "openai")).
  - destruct (apiKey settings) as [|c r] eqn:Hk.
    + rewrite (generateWithOpenAI_no_key W goalText settings _ Hk). cbn; lia.
    + rewrite openai_trace_shape by (rewrite Hk; discriminate).
      destruct (outcome _); cbn; lia.
  - destruct (gemini_apiKeyToUse W settings) as [[|c r]|] eqn:Hu.
    + unfold generateWithGemini. rewrite Hu. cbn; lia.
    + rewrite (generateWithGemini_key W goalText settings _ (c :: r) Hu)
        by discriminate.
      cbn; lia.
    + unfold generateWithGemini. rewrite Hu. cbn; lia.
Qed.

(** The dispatcher makes at most one call to a backend, whatever the
    settings and whatever the backend answers: nothing is retried. *)
Theorem generate_makes_at_most_one_call goalText settings :
  (List.length (network_calls (trace (generateWeeklyPlan W goalText settings))) <= 1)%nat.
Proof.
  intros. apply dispatcher_single_call; assumption.
Qed.

(** An ok response that carries no usable content (no choices, no
    message, or content that is missing, null, empty, false or zero)
    makes the adapter fail with its own error for that. *)
Theorem openai_no_content goalText settings dateStr response data content :
  apiKey settings <> [] ->
  fetch W (openai_request goalText settings dateStr) = inr response ->
  ok response = true ->
  JSON_parse (body response) = Some data ->
  first_choice_content W data = ret content ->
  falsy content = true ->
  outcome (generateWithOpenAI W goalText settings dateStr)
  = inl (Error (js "No content returned from API.")).
Proof.
  intros Hk Hf Hok Hd Hc Hfalsy. unfold generateWithOpenAI.
  rewrite (falsy_string_nonempty _ Hk).
  unfold do_fetch, response_json, JSON_parse_or_throw.
  unfold bind at 1 2. unfold emit. rewrite Hf, Hok.
  cbn [negb app]. rewrite Hd. unfold bind at 1. unfold ret at 1.
  rewrite Hc. unfold bind at 1. unfold ret at 1.
  rewrite Hfalsy. reflexivity.
Qed.

(** An ok response whose body is no JSON makes the adapter fail with the
    SyntaxError of [response.json()]. *)
Theorem openai_body_not_json goalText settings dateStr response :
  apiKey settings <> [] ->
  fetch W (openai_request goalText settings dateStr) = inr response ->
  ok response = true ->
  JSON_parse (body response) = None ->
  outcome (generateWithOpenAI W goalText settings dateStr)
  = inl (SyntaxError W (body response)).
Proof.
  intros Hk Hf Hok Hd. unfold generateWithOpenAI.
  rewrite (falsy_string_nonempty _ Hk).
  unfold do_fetch, response_json, JSON_parse_or_throw.
  unfold bind at 1 2. unfold emit. rewrite Hf, Hok.
  cbn [negb app]. rewrite Hd. reflexivity.
Qed.

(** When the SDK resolves without text, or with the empty text, the
    Gemini adapter fails with its own error for that, after its one
    call. *)
Theorem gemini_empty_response goalText settings dateStr key text :
  gemini_apiKeyToUse W settings = Some key ->
  key <> [] ->
  generateContent W (gemini_request goalText settings dateStr key) = inr text ->
  falsy_opt_string text = true ->
  generateWithGemini W goalText settings dateStr
  = ([EvGenerateContent (gemini_request goalText settings dateStr key)],
     inl (Error (js "No response from Gemini"))).
Proof.
  intros Hu Hk Hg Ht.
  rewrite (generateWithGemini_key W goalText settings dateStr key Hu Hk), Hg.
  destruct text as [t|]; [|reflexivity].
  cbn [falsy_opt_string] in Ht. rewrite Ht. reflexivity.
Qed.

(** What the SDK throws, the Gemini adapter throws on as it is, without
    writing to the console. *)
Theorem gemini_sdk_failure goalText settings dateStr key e :
  gemini_apiKeyToUse W settings = Some key ->
  key <> [] ->
  generateContent W (gemini_request goalText settings dateStr key) = inl e ->
  generateWithGemini W goalText settings dateStr
  = ([EvGenerateContent (gemini_request goalText settings dateStr key)], inl e).
Proof.
  intros Hu Hk Hg.
  rewrite (generateWithGemini_key W goalText settings dateStr key Hu Hk), Hg.
  reflexivity.
Qed.

Lemma validateGeminiConnection_run key :
  key <> [] ->
  validateGeminiConnection W key
  = match generateContent W (mkSdkRequest key (js "gemini-2.5-flash") (js "Ping") None) with
    | inr _ =>
        ([EvGenerateContent (mkSdkRequest key (js "gemini-2.5-flash") (js "Ping") None)],
         inr true)
    | inl e =>
        ([EvGenerateContent (mkSdkRequest key (js "gemini-2.5-flash") (js "Ping") None);
          EvConsoleError (js "Gemini Validation Failed") e],
         inl (Error (if falsy_string (exn_message e) then js "验证失败"
                     else exn_message e)))
    end.
Proof.
  intros Hk. unfold validateGeminiConnection.
  rewrite (falsy_string_nonempty _ Hk).
  unfold do_generateContent, bind, emit, try_catch, throw, ret.
  destruct (generateContent W _); reflexivity.
Qed.

(** The Gemini probe pings the model gemini-2.5-flash with the key it is
    given and nothing else of the settings; it resolves to true when the
    SDK resolves, and when the SDK throws it writes that to the console
    and throws a new Error with the same message, or with the default
    message when there is none. *)
Theorem gemini_probe key :
  key <> [] ->
  validateGeminiConnection W key
  = match generateContent W (mkSdkRequest key (js "gemini-2.5-flash") (js "Ping") None) with
    | inr _ =>
        ([EvGenerateContent (mkSdkRequest key (js "gemini-2.5-flash") (js "Ping") None)],
         inr true)
    | inl e =>
        ([EvGenerateContent (mkSdkRequest key (js "gemini-2.5-flash") (js "Ping") None);
          EvConsoleError (js "Gemini Validation Failed") e],
         inl (Error (if falsy_string (exn_message e) then js "验证失败"
                     else exn_message e)))
    end.
Proof.
  intros. apply validateGeminiConnection_run; assumption.
Qed.

End AdapterTraces.

Lemma openai_logs_and_rethrows_example :
  trace (generateWithOpenAI
           (Examples.mock (inl Examples.unreachable) (inl Examples.unreachable) None)
           Examples.goal (Examples.openai_settings (js "sk-1") None) Examples.today)
  = [EvFetch (openai_request Examples.goal
                (Examples.openai_settings (js "sk-1") None) Examples.today);
     EvConsoleError openai_label Examples.unreachable].
Proof.
  rewrite (openai_logs_and_rethrows
             (Examples.mock (inl Examples.unreachable) (inl Examples.unreachable) None)
             Examples.goal (Examples.openai_settings (js "sk-1") None)
             Examples.today).
  - reflexivity.
  - vm_compute; discriminate.
Defined.

Lemma openai_no_content_example :
  outcome (generateWithOpenAI
             (Examples.mock
                (inr (mkResponse 200 (js "OK")
                        (js "{" ++ Examples.q "choices" ++ js ":[]}")))
                (inl Examples.unreachable) None)
             Examples.goal (Examples.openai_settings (js "sk-1") None) Examples.today)
  = inl (Error (js "No content returned from API.")).
Proof.
  apply (openai_no_content
           (Examples.mock
              (inr (mkResponse 200 (js "OK")
                      (js "{" ++ Examples.q "choices" ++ js ":[]}")))
              (inl Examples.unreachable) None)
           Examples.goal (Examples.openai_settings (js "sk-1") None) Examples.today
           (mkResponse 200 (js "OK") (js "{" ++ Examples.q "choices" ++ js ":[]}"))
           (JObject [(js "choices", JArray [])]) None);
    [vm_compute; discriminate | reflexivity | reflexivity
    | vm_compute; reflexivity | vm_compute; reflexivity | reflexivity].
Defined.

Lemma openai_body_not_json_example :
  outcome (generateWithOpenAI
             (Examples.mock (inr (mkResponse 200 (js "OK") (js "<html>")))
                (inl Examples.unreachable) None)
             Examples.goal (Examples.openai_settings (js "sk-1") None) Examples.today)
  = inl (SyntaxError
           (Examples.mock (inr (mkResponse 200 (js "OK") (js "<html>")))
              (inl Examples.unreachable) None)
           (js "<html>")).
Proof.
  apply (openai_body_not_json
           (Examples.mock (inr (mkResponse 200 (js "OK") (js "<html>")))
              (inl Examples.unreachable) None)
           Examples.goal (Examples.openai_settings (js "sk-1") None) Examples.today
           (mkResponse 200 (js "OK") (js "<html>")));
    [vm_compute; discriminate | reflexivity | reflexivity | vm_compute; reflexivity].
Defined.

Lemma gemini_empty_response_example :
  generateWithGemini (Examples.mock (inl Examples.unreachable) (inr None) None)
    Examples.goal (Examples.gemini_settings (js "key")) Examples.today
  = ([EvGenerateContent
        (gemini_request Examples.goal (Examples.gemini_settings (js "key"))
           Examples.today (js "key"))],
     inl (Error (js "No response from Gemini"))).
Proof.
  apply (gemini_empty_response
           (Examples.mock (inl Examples.unreachable) (inr None) None)
           Examples.goal (Examples.gemini_settings (js "key")) Examples.today
           (js "key") None);
    [reflexivity | vm_compute; discriminate | reflexivity | reflexivity].
Defined.

Lemma gemini_sdk_failure_example :
  generateWithGemini
    (Examples.mock (inl Examples.unreachable) (inl Examples.unreachable) None)
    Examples.goal (Examples.gemini_settings (js "key")) Examples.today
  = ([EvGenerateContent
        (gemini_request Examples.goal (Examples.gemini_settings (js "key"))
           Examples.today (js "key"))],
     inl Examples.unreachable).
Proof.
  apply (gemini_sdk_failure
           (Examples.mock (inl Examples.unreachable) (inl Examples.unreachable) None)
           Examples.goal (Examples.gemini_settings (js "key")) Examples.today
           (js "key") Examples.unreachable);
    [reflexivity | vm_compute; discriminate | reflexivity].
Defined.

Lemma gemini_probe_example :
  validateGeminiConnection
    (Examples.mock (inl Examples.unreachable)
       (inl (mkExn (js "ApiError") [])) None) (js "key")
  = ([EvGenerateContent (mkSdkRequest (js "key") (js "gemini-2.5-flash") (js "Ping") None);
      EvConsoleError (js "Gemini Validation Failed") (mkExn (js "ApiError") [])],
     inl (Error (js "验证失败"))).
Proof.
  rewrite (gemini_probe
             (Examples.mock (inl Examples.unreachable)
                (inl (mkExn (js "ApiError") [])) None) (js "key")).
  - reflexivity.
  - vm_compute; discriminate.
Defined.

(* ================================================================== *)
(** ** Further properties of the cleaning of the content *)
(* ================================================================== *)

Lemma trimStart_ws_app (w s : jsstring) :
  forallb isWhiteSpace w = true -> trimStart (w ++ s) = trimStart s.
Proof.
  induction w as [|c w IH]; simpl; intros H; [reflexivity|].
  apply andb_prop in H as [Hc Hw]. rewrite Hc. now apply IH.
Qed.

Lemma trimStart_all_ws (w : jsstring) :
  forallb isWhiteSpace w = true -> trimStart w = [].
Proof.
  intros H. rewrite <- (app_nil_r w). now rewrite trimStart_ws_app.
Qed.

Lemma trimEnd_app_ws (s w : jsstring) :
  forallb isWhiteSpace w = true -> trimEnd (s ++ w) = trimEnd s.
Proof.
  intros H. unfold trimEnd. rewrite rev_app_distr.
  rewrite trimStart_ws_app; [reflexivity|].
  rewrite forallb_forall in *. intros x Hx. apply H. now apply in_rev.
Qed.

Lemma trim_app_ws (s w : jsstring) :
  forallb isWhiteSpace w = true -> trim (s ++ w) = trim s.
Proof.
  intros H. unfold trim. induction s as [|c s IH].
  - simpl. now rewrite (trimStart_all_ws w H).
  - simpl. destruct (isWhiteSpace c); [exact IH|].
    change (c :: s ++ w) with ((c :: s) ++ w). now apply trimEnd_app_ws.
Qed.

Lemma trimStart_app_last (s : jsstring) (e : N) :
  isWhiteSpace e = false -> trimStart (s ++ [e]) = trimStart s ++ [e].
Proof.
  intros He. induction s as [|c s IH]; simpl.
  - now rewrite He.
  - destruct (isWhiteSpace c); [exact IH | reflexivity].
Qed.

Lemma trimStart_head (s : jsstring) :
  trimStart s = [] \/
  exists e r, trimStart s = e :: r /\ isWhiteSpace e = false.
Proof.
  induction s as [|c s IH]; simpl; [now left|].
  destruct (isWhiteSpace c) eqn:Hc; [exact IH|].
  right. now exists c, s.
Qed.

Lemma trimEnd_last (s : jsstring) :
  trimEnd s = [] \/
  exists x e, trimEnd s = x ++ [e] /\ isWhiteSpace e = false.
Proof.
  unfold trimEnd. destruct (trimStart_head (rev s)) as [E|[e [r [E He]]]].
  - left. now rewrite E.
  - right. exists (rev r), e. rewrite E. now split.
Qed.

Lemma trimEnd_app_nonempty (a c : jsstring) :
  trimEnd c <> [] -> trimEnd (a ++ c) = a ++ trimEnd c.
Proof.
  intros Hne.
  destruct (trimEnd_split c) as [w [E F]].
  destruct (trimEnd_last c) as [E0|[x [e [E1 He]]]]; [contradiction|].
  rewrite E at 1. rewrite app_assoc, (trimEnd_app_ws _ w F).
  rewrite E1, app_assoc. now apply trimEnd_id.
Qed.

(** White space before and after the content is gone after [trim]. *)
Lemma trim_surrounding (w1 s w2 : jsstring) :
  forallb isWhiteSpace w1 = true ->
  forallb isWhiteSpace w2 = true ->
  trim (w1 ++ s ++ w2) = trim s.
Proof.
  intros H1 H2. rewrite app_assoc, (trim_app_ws _ w2 H2).
  unfold trim. now rewrite (trimStart_ws_app w1 s H1).
Qed.

(** White space around content that is not empty never changes what the
    adapter returns: when the first choice carries a non-empty [s] with
    white space before and after it, the outcome is the one that [s]
    alone decides.  (Content that is empty is refused before it is
    trimmed, so content of white space only fails in the parser
    instead.) *)
Theorem content_surrounding_whitespace
    (W : World) (goalText : jsstring) (settings : AppSettings)
    (dateStr : jsstring) (response : Response) (data : json)
    (w1 s w2 : jsstring) :
  apiKey settings <> [] ->
  fetch W (openai_request goalText settings dateStr) = inr response ->
  ok response = true ->
  JSON_parse (body response) = Some data ->
  first_choice_content W data = ret (Some (JString (w1 ++ s ++ w2))) ->
  forallb isWhiteSpace w1 = true ->
  forallb isWhiteSpace w2 = true ->
  s <> [] ->
  outcome (generateWithOpenAI W goalText settings dateStr)
  = match JSON_parse (strip_fence (trim s)) with
    | Some v => inr v
    | None => inl (SyntaxError W (strip_fence (trim s)))
    end.
Proof.
  intros Hk Hf Hok Hd Hc H1 H2 Hs.
  assert (Hne : w1 ++ s ++ w2 <> []).
  { destruct w1; [|discriminate]. destruct s; [contradiction | discriminate]. }
  rewrite (generateWithOpenAI_content W goalText settings dateStr
             response data (w1 ++ s ++ w2) Hk Hf Hok Hd Hc Hne).
  rewrite (trim_surrounding w1 s w2 H1 H2).
  destruct (JSON_parse (strip_fence (trim s))); reflexivity.
Qed.

Lemma content_surrounding_whitespace_example :
  outcome (generateWithOpenAI
             (Examples.mock
                (inr (mkResponse 200 (js "OK") Examples.padded_completion))
                (inl Examples.unreachable) None)
             Examples.goal (Examples.openai_settings (js "sk-1") None) Examples.today)
  = inr (JObject []).
Proof.
  rewrite (content_surrounding_whitespace
             (Examples.mock
                (inr (mkResponse 200 (js "OK") Examples.padded_completion))
                (inl Examples.unreachable) None)
             Examples.goal (Examples.openai_settings (js "sk-1") None) Examples.today
             (mkResponse 200 (js "OK") Examples.padded_completion)
             (JObject [(js "choices",
                JArray [JObject [(js "message",
                  JObject [(js "content",
                    JString (js "  " ++ (js "```json" ++ nl ++ js "{}" ++ nl ++ js "```")
                             ++ nl))])]])])
             (js "  ") (js "```json" ++ nl ++ js "{}" ++ nl ++ js "```") nl);
    [vm_compute; reflexivity | vm_compute; discriminate | reflexivity | reflexivity
    | vm_compute; reflexivity | vm_compute; reflexivity | reflexivity | reflexivity
    | vm_compute; discriminate].
Defined.

(** *** Texts that end in a backquote *)

Lemma lit_lower_complete (v : json) (stack : list frame) :
  lit_lower (complete v stack) = true.
Proof. destruct stack as [|[acc|acc k] st]; reflexivity. Qed.

Lemma lit_lower_start_value (c : N) (stack : list frame) :
  lit_lower (start_value c stack) = true.
Proof.
  unfold start_value.
  repeat match goal with
    | |- context [if ?b then _ else _] => destruct b; try reflexivity
    end.
  destruct (digit c); [destruct (n =? 0)%N|]; reflexivity.
Qed.

Lemma lit_lower_step_after (q : state) (c : N) : lit_lower (step_after q c) = true.
Proof.
  destruct q as [m stack]. unfold step_after.
  destruct m; try reflexivity;
    repeat match goal with
      | |- context [if ?b then _ else _] => destruct b; try reflexivity
      end; apply lit_lower_complete.
Qed.

Lemma lit_lower_step (q : state) (c : N) :
  lit_lower q = true -> lit_lower (step q c) = true.
Proof.
  destruct q as [m stack].
  destruct m as [| |ea| |oa|oa k|oa|key buf st|acc ns|next rest lv|dv|];
    intros Hq; cbn [step];
    try apply lit_lower_step_after;
    try match goal with
      | |- context [is_json_ws c] =>
          repeat match goal with
            | |- context [if ?b then _ else _] => destruct b
            end;
          try reflexivity; try apply lit_lower_complete;
          apply lit_lower_start_value
      end;
    try reflexivity.
  - destruct st as [| |more hacc].
    + destruct (c =? 34)%N; [destruct key; [reflexivity|apply lit_lower_complete]|].
      destruct (c =? 92)%N; [reflexivity|]. destruct (c <? 32)%N; reflexivity.
    + destruct (c =? 117)%N; [reflexivity|]. destruct (escape c); reflexivity.
    + destruct (hexval c); [destruct more|]; reflexivity.
  - destruct (num_step acc ns c) as [[a' ns']|]; [reflexivity|].
    destruct (num_complete ns); [apply lit_lower_step_after|reflexivity].
  - destruct (c =? next)%N; [|reflexivity].
    destruct rest as [|x r]; [apply lit_lower_complete|].
    unfold lit_lower in *. simpl in *.
    apply andb_prop in Hq as [_ Hq]. exact Hq.
Qed.

Lemma lit_lower_run (s : jsstring) (q : state) :
  lit_lower q = true -> lit_lower (run q s) = true.
Proof.
  revert q; induction s as [|c s IH]; simpl; intros q Hq; [assumption|].
  apply IH. now apply lit_lower_step.
Qed.

Lemma finish_step_backquote (q : state) :
  lit_lower q = true -> finish (step q 96) = None.
Proof.
  destruct q as [m stack].
  destruct m as [| |ea| |oa|oa k|oa|key buf st|acc ns|next rest lv|dv|];
    intros Hq; try reflexivity.
  - destruct st as [| |more hacc]; reflexivity.
  - destruct ns; try reflexivity;
      destruct stack as [|[fa|fa fk] st]; reflexivity.
  - unfold lit_lower in Hq. cbn [fst forallb] in Hq.
    apply andb_prop in Hq as [Hn _]. apply andb_prop in Hn as [Hn _].
    apply N.leb_le in Hn. cbn [step].
    destruct (N.eqb_spec 96 next) as [E|_]; [lia | reflexivity].
Qed.

(** No text that ends in a backquote is JSON. *)
Lemma JSON_parse_backquote_end (s : jsstring) : JSON_parse (s ++ [96%N]) = None.
Proof.
  unfold JSON_parse. rewrite run_app. cbn [run fold_left].
  apply finish_step_backquote. now apply lit_lower_run.
Qed.

Lemma endsWith_fence_last (x : jsstring) (e : N) :
  e <> 96%N -> endsWith (x ++ [e]) (js "```") = false.
Proof.
  intros He. unfold endsWith. rewrite rev_app_distr.
  change (rev (js "```")) with [96; 96; 96]%N. simpl.
  apply N.eqb_neq in He. now rewrite He.
Qed.

Section OpenFence.

Variable W : World.

(** A fence that is opened and never closed is tolerated: JSON text
    after a leading [```json] or [```] marker, with no marker after it,
    is parsed to the value of the text. *)
Theorem unterminated_fence (c : jsstring) (v : json) :
  JSON_parse c = Some v ->
  parse_content W (Some (JString (js "```json" ++ c))) = ret v
  /\ parse_content W (Some (JString (js "```" ++ c))) = ret v.
Proof.
  intros Hc.
  pose proof (JSON_parse_trimEnd c v Hc) as Ht.
  assert (Hne : trimEnd c <> []) by (intros E; rewrite E in Ht; discriminate).
  destruct (trimEnd_last c) as [E|[x [e [E He]]]]; [contradiction|].
  assert (He96 : e <> 96%N).
  { intros ->. rewrite E, JSON_parse_backquote_end in Ht. discriminate. }
  destruct (JSON_parse_first _ _ Ht) as [y [r [Ey [_ Hy]]]].
  split; unfold parse_content, trim.
  - change (js "```json") with (96%N :: js "``json").
    rewrite <- app_comm_cons, trimStart_id by reflexivity.
    rewrite app_comm_cons, (trimEnd_app_nonempty _ c Hne).
    change (96%N :: js "``json") with (js "```json").
    unfold strip_fence. rewrite startsWith_app, replace_prefix_app.
    unfold replace_suffix. rewrite E, (endsWith_fence_last x e He96), <- E.
    unfold JSON_parse_or_throw. now rewrite Ht.
  - change (js "```") with (96%N :: js "``").
    rewrite <- app_comm_cons, trimStart_id by reflexivity.
    rewrite app_comm_cons, (trimEnd_app_nonempty _ c Hne).
    change (96%N :: js "``") with (js "```").
    unfold strip_fence.
    assert (Ej : startsWith (js "```" ++ trimEnd c) (js "```json") = false).
    { rewrite Ey. apply N.eqb_neq in Hy.
      change (js "```json") with [96; 96; 96; 106; 115; 111; 110]%N.
      change (js "```") with [96; 96; 96]%N. simpl. now rewrite Hy. }
    rewrite Ej, startsWith_app, replace_prefix_app.
    unfold replace_suffix. rewrite E, (endsWith_fence_last x e He96), <- E.
    unfold JSON_parse_or_throw. now rewrite Ht.
Qed.

(** A closing marker with no opening one is not removed, and the call
    fails on it: content that ends in [```] and does not start with a
    fence is never parsed. *)
Theorem closing_fence_alone_fails (c : jsstring) :
  startsWith (trim (c ++ js "```")) (js "```") = false ->
  parse_content W (Some (JString (c ++ js "```")))
  = throw (SyntaxError W (trim (c ++ js "```"))).
Proof.
  intros H. rewrite (parse_content_no_fence W _ H).
  assert (E : exists y, trim (c ++ js "```") = y ++ [96%N]).
  { change (js "```") with ([96; 96]%N ++ [96%N]). rewrite app_assoc.
    unfold trim. rewrite trimStart_app_last by reflexivity.
    rewrite trimEnd_id by reflexivity. eexists; reflexivity. }
  destruct E as [y E]. unfold JSON_parse_or_throw.
  rewrite E at 1. rewrite JSON_parse_backquote_end. reflexivity.
Qed.

End OpenFence.

Lemma unterminated_fence_example :
  parse_content (Examples.mock (inl Examples.unreachable) (inl Examples.unreachable) None)
    (Some (JString (js "```json" ++ (nl ++ Examples.plan_text ++ nl))))
  = ret Examples.plan_value.
Proof.
  refine (proj1 (unterminated_fence
           (Examples.mock (inl Examples.unreachable) (inl Examples.unreachable) None)
           (nl ++ Examples.plan_text ++ nl) Examples.plan_value _)).
  vm_compute; reflexivity.
Defined.

Lemma closing_fence_alone_example :
  parse_content (Examples.mock (inl Examples.unreachable) (inl Examples.unreachable) None)
    (Some (JString (js "{}" ++ js "```")))
  = throw (SyntaxError
             (Examples.mock (inl Examples.unreachable) (inl Examples.unreachable) None)
             (trim (js "{}" ++ js "```"))).
Proof.
  apply (closing_fence_alone_fails
           (Examples.mock (inl Examples.unreachable) (inl Examples.unreachable) None)
           (js "{}")).
  vm_compute; reflexivity.
Defined.

(* ================================================================== *)
(** ** Further properties of the settings modal *)
(* ================================================================== *)

Section Probes.

Variable W : World.

(** The [try] block of the models probe sends its one request, and when
    it yields models there is at least one. *)
Lemma fetch_models_shape (formData : AppSettings) :
  exists r,
    fetch_models W formData = ([EvFetch (models_request formData)], r)
    /\ forall models, r = inr models -> models <> [].
Proof.
  unfold fetch_models, do_fetch, response_json, JSON_parse_or_throw.
  unfold bind at 1 2. unfold emit.
  destruct (fetch W (models_request formData)) as [e|response];
    [eexists; split; [reflexivity | discriminate]|].
  destruct (ok response); cbn [negb app];
    [|eexists; split; [reflexivity | discriminate]].
  destruct (JSON_parse (body response)) as [data|];
    [|eexists; split; [reflexivity | discriminate]].
  unfold bind at 1. unfold ret at 1.
  destruct (if falsy (Some data) then None else prop data (js "data"))
    as [[| | | |items|]|];
    try (eexists; split; [reflexivity | discriminate]).
  unfold bind, ret, throw.
  destruct (modelsFromApi W items) as [e|models];
    [eexists; split; [reflexivity | discriminate]|].
  destruct models as [|m ms];
    eexists; (split; [reflexivity|]); intros ? H; inversion H; discriminate.
Qed.

Lemma verify_openai_facts (s : ModalState) :
  apiKey (formData s) <> [] ->
  formData (snd (handleVerifyOpenAI W s)) = formData s
  /\ isLoading (snd (handleVerifyOpenAI W s)) = false
  /\ connectionStatus (snd (handleVerifyOpenAI W s)) <> idle
  /\ (connectionStatus (snd (handleVerifyOpenAI W s)) = success ->
      fetchedModels (snd (handleVerifyOpenAI W s)) <> [])
  /\ (connectionStatus (snd (handleVerifyOpenAI W s)) = error ->
      fetchedModels (snd (handleVerifyOpenAI W s)) = fetchedModels s)
  /\ network_calls (fst (handleVerifyOpenAI W s))
     = [EvFetch (models_request (formData s))].
Proof.
  intros Hk. unfold handleVerifyOpenAI. rewrite (falsy_string_nonempty _ Hk).
  cbn [formData setStatusMessage setConnectionStatus setIsLoading].
  destruct (fetch_models_shape (formData s)) as [r [E Hm]]. rewrite E.
  destruct r as [e|models];
    cbn [snd fst formData isLoading connectionStatus fetchedModels
         setIsLoading setStatusMessage setConnectionStatus setFetchedModels
         app network_calls filter is_network];
    repeat split; try discriminate; try reflexivity.
  intros _. now apply Hm.
Qed.

(** Whatever the endpoint does, the models probe leaves the settings of
    the form as they were, ends with the loading flag down and never in
    the idle state, shows models only when it found some, keeps the old
    list when it fails, and has sent exactly one request. *)
Theorem verify_openai_invariants (s : ModalState) :
  apiKey (formData s) <> [] ->
  formData (snd (handleVerifyOpenAI W s)) = formData s
  /\ isLoading (snd (handleVerifyOpenAI W s)) = false
  /\ connectionStatus (snd (handleVerifyOpenAI W s)) <> idle
  /\ (connectionStatus (snd (handleVerifyOpenAI W s)) = success ->
      fetchedModels (snd (handleVerifyOpenAI W s)) <> [])
  /\ (connectionStatus (snd (handleVerifyOpenAI W s)) = error ->
      fetchedModels (snd (handleVerifyOpenAI W s)) = fetchedModels s)
  /\ network_calls (fst (handleVerifyOpenAI W s))
     = [EvFetch (models_request (formData s))].
Proof.
  intros. apply verify_openai_facts; assumption.
Qed.

(** When the request itself fails (no network, or the ten-second abort),
    the probe shows the message of what was thrown, or its default
    message when there is none. *)
Theorem probe_request_fails (s : ModalState) (e : exn) :
  apiKey (formData s) <> [] ->
  fetch W (models_request (formData s)) = inl e ->
  connectionStatus (snd (handleVerifyOpenAI W s)) = error
  /\ statusMessage (snd (handleVerifyOpenAI W s))
     = (if falsy_string (exn_message e) then js "连接失败" else exn_message e).
Proof.
  intros Hk Hf. unfold handleVerifyOpenAI. rewrite (falsy_string_nonempty _ Hk).
  cbn [formData setStatusMessage setConnectionStatus setIsLoading].
  unfold fetch_models, do_fetch, bind, emit. rewrite Hf.
  split; reflexivity.
Qed.

(** An ok response whose JSON body has no array under [data] is reported
    as a format error. *)
Theorem probe_wrong_format (s : ModalState) (response : Response) (data : json) :
  apiKey (formData s) <> [] ->
  fetch W (models_request (formData s)) = inr response ->
  ok response = true ->
  JSON_parse (body response) = Some data ->
  (forall items, prop data (js "data") <> Some (JArray items)) ->
  connectionStatus (snd (handleVerifyOpenAI W s)) = error
  /\ statusMessage (snd (handleVerifyOpenAI W s)) = js "格式错误".
Proof.
  intros Hk Hf Hok Hd Hp. unfold handleVerifyOpenAI.
  rewrite (falsy_string_nonempty _ Hk).
  cbn [formData setStatusMessage setConnectionStatus setIsLoading].
  assert (E : fetch_models W (formData s)
              = ([EvFetch (models_request (formData s))],
                 inl (Error (js "格式错误")))).
  { unfold fetch_models, do_fetch, response_json, JSON_parse_or_throw.
    unfold bind at 1 2. unfold emit. rewrite Hf, Hok. cbn [negb app].
    rewrite Hd. unfold bind at 1. unfold ret at 1.
    destruct (falsy (Some data)); [reflexivity|].
    destruct (prop data (js "data")) as [[| | | |items|]|] eqn:E;
      try reflexivity.
    exfalso. exact (Hp items eq_refl). }
  rewrite E. cbn [exn_message Error].
  change (js "格式错误") with (26684%N :: js "式错误") at 1.
  split; reflexivity.
Qed.

(** The Gemini handler pings with the key of the form; it ends in the
    success state when the SDK resolves and in the error state, with a
    message of its own, whatever the SDK threw; the form and the list of
    models stay as they were and the loading flag is down. *)
Theorem verify_gemini (s : ModalState) :
  apiKey (formData s) <> [] ->
  network_calls (fst (handleVerifyGemini W s))
  = [EvGenerateContent
       (mkSdkRequest (apiKey (formData s)) (js "gemini-2.5-flash") (js "Ping") None)]
  /\ formData (snd (handleVerifyGemini W s)) = formData s
  /\ fetchedModels (snd (handleVerifyGemini W s)) = fetchedModels s
  /\ isLoading (snd (handleVerifyGemini W s)) = false
  /\ match generateContent W
             (mkSdkRequest (apiKey (formData s)) (js "gemini-2.5-flash") (js "Ping") None)
     with
     | inr _ =>
         connectionStatus (snd (handleVerifyGemini W s)) = success
         /\ statusMessage (snd (handleVerifyGemini W s)) = js "验证成功！Key 有效"
     | inl _ =>
         connectionStatus (snd (handleVerifyGemini W s)) = error
         /\ statusMessage (snd (handleVerifyGemini W s)) = js "验证失败，请检查 Key"
     end.
Proof.
  intros Hk. unfold handleVerifyGemini. rewrite (falsy_string_nonempty _ Hk).
  cbn [formData setStatusMessage setConnectionStatus setIsLoading].
  rewrite (validateGeminiConnection_run W _ Hk).
  destruct (generateContent W _) as [e|text];
    cbn [snd fst formData isLoading connectionStatus fetchedModels statusMessage
         setIsLoading setStatusMessage setConnectionStatus
         app network_calls filter is_network];
    repeat split.
Qed.

(** After a probe that succeeded for the OpenAI provider the drop-down
    shows the models that were found. *)
Theorem dropdown_after_verify (s : ModalState) :
  apiKey (formData s) <> [] ->
  provider (formData s) = js "openai" ->
  connectionStatus (snd (handleVerifyOpenAI W s)) = success ->
  dropdownOptions (snd (handleVerifyOpenAI W s))
  = fetchedModels (snd (handleVerifyOpenAI W s)).
Proof.
  intros Hk Hp Hs.
  destruct (verify_openai_facts s Hk) as [Hf [_ [_ [Hm _]]]].
  specialize (Hm Hs). unfold dropdownOptions, isOpenAI. rewrite Hf, Hp.
  change (streq (js "openai") (js "openai")) with true.
  destruct (fetchedModels (snd (handleVerifyOpenAI W s))); [contradiction|].
  reflexivity.
Qed.

End Probes.

Lemma verify_openai_invariants_example :
  connectionStatus
    (snd (handleVerifyOpenAI
            (Examples.mock (inr (mkResponse 503 (js "Unavailable") []))
               (inl Examples.unreachable) None)
            (Examples.modal (Examples.openai_settings (js "sk-1") None))))
  <> idle.
Proof.
  refine (proj1 (proj2 (proj2 (verify_openai_invariants
            (Examples.mock (inr (mkResponse 503 (js "Unavailable") []))
               (inl Examples.unreachable) None)
            (Examples.modal (Examples.openai_settings (js "sk-1") None)) _)))).
  vm_compute; discriminate.
Defined.

Lemma probe_request_fails_example :
  statusMessage
    (snd (handleVerifyOpenAI
            (Examples.mock (inl (mkExn (js "AbortError") [])) (inl Examples.unreachable) None)
            (Examples.modal (Examples.openai_settings (js "sk-1") None))))
  = js "连接失败".
Proof.
  refine (proj2 (probe_request_fails
            (Examples.mock (inl (mkExn (js "AbortError") [])) (inl Examples.unreachable) None)
            (Examples.modal (Examples.openai_settings (js "sk-1") None))
            (mkExn (js "AbortError") []) _ _));
    [vm_compute; discriminate | reflexivity].
Defined.

Lemma probe_wrong_format_example :
  statusMessage
    (snd (handleVerifyOpenAI
            (Examples.mock (inr (mkResponse 200 (js "OK") (js "[]")))
               (inl Examples.unreachable) None)
            (Examples.modal (Examples.openai_settings (js "sk-1") None))))
  = js "格式错误".
Proof.
  refine (proj2 (probe_wrong_format
            (Examples.mock (inr (mkResponse 200 (js "OK") (js "[]")))
               (inl Examples.unreachable) None)
            (Examples.modal (Examples.openai_settings (js "sk-1") None))
            (mkResponse 200 (js "OK") (js "[]")) (JArray []) _ _ _ _ _));
    [vm_compute; discriminate | reflexivity | reflexivity
    | vm_compute; reflexivity | intros items; vm_compute; discriminate].
Defined.

Lemma verify_gemini_example :
  isLoading
    (snd (handleVerifyGemini
            (Examples.mock (inl Examples.unreachable) (inr (Some (js "pong"))) None)
            (Examples.modal (Examples.gemini_settings (js "key")))))
  = false.
Proof.
  refine (proj1 (proj2 (proj2 (proj2 (verify_gemini
            (Examples.mock (inl Examples.unreachable) (inr (Some (js "pong"))) None)
            (Examples.modal (Examples.gemini_settings (js "key"))) _))))).
  vm_compute; discriminate.
Defined.

Lemma dropdown_after_verify_example :
  dropdownOptions
    (snd (handleVerifyOpenAI
            (Examples.mock (inr (mkResponse 200 (js "OK") Examples.models_body))
               (inl Examples.unreachable) None)
            (Examples.modal (Examples.openai_settings (js "sk-1") None))))
  = fetchedModels
      (snd (handleVerifyOpenAI
              (Examples.mock (inr (mkResponse 200 (js "OK") Examples.models_body))
                 (inl Examples.unreachable) None)
              (Examples.modal (Examples.openai_settings (js "sk-1") None)))).
Proof.
  refine (dropdown_after_verify
            (Examples.mock (inr (mkResponse 200 (js "OK") Examples.models_body))
               (inl Examples.unreachable) None)
            (Examples.modal (Examples.openai_settings (js "sk-1") None)) _ _ _);
    [vm_compute; discriminate | reflexivity | vm_compute; reflexivity].
Defined.

(** *** The URL of the requests *)

(** C6. The request of the adapter goes to the base URL followed by
    /chat/completions and the request of the models probe to the same
    base URL followed by /models, where the base URL is the configured
    one less its last code unit when that is a slash (whatever comes
    before it, a second slash included, stays), the configured one
    itself when it is not empty and does not end in a slash, and
    https://api.openai.com/v1 when none is configured or the configured
    one is empty. *)
Theorem baseUrl_normalisation
    (W : World) (goalText : jsstring) (settings : AppSettings)
    (dateStr : jsstring) (s : ModalState) :
  apiKey settings <> [] ->
  formData s = settings ->
  exists base,
    network_calls (trace (generateWithOpenAI W goalText settings dateStr))
    = [EvFetch (openai_request goalText settings dateStr)]
    /\ req_url (openai_request goalText settings dateStr)
       = base ++ js "/chat/completions"
    /\ network_calls (fst (handleVerifyOpenAI W s))
       = [EvFetch (models_request settings)]
    /\ req_url (models_request settings) = base ++ js "/models"
    /\ (forall u, baseUrl settings = Some (u ++ js "/") -> base = u)
    /\ (forall u c, baseUrl settings = Some (u ++ [c]) -> c <> 47%N ->
        base = u ++ [c])
    /\ (baseUrl settings = None \/ baseUrl settings = Some [] ->
        base = js "https://api.openai.com/v1").
Proof.
  intros Hk Hs. exists (openai_baseUrl settings).
  destruct (openai_baseUrl_cases settings) as [H1 [H2 [H3 H4]]].
  split; [|split; [|split; [|split; [|split; [|split]]]]].
  - rewrite (openai_trace_shape W goalText settings dateStr Hk).
    destruct (outcome (generateWithOpenAI W goalText settings dateStr));
      reflexivity.
  - unfold openai_request. cbn [req_url]. reflexivity.
  - rewrite <- Hs in Hk.
    destruct (verify_openai_facts W s Hk) as [_ [_ [_ [_ [_ H]]]]].
    rewrite H, Hs. reflexivity.
  - unfold models_request. cbn [req_url]. rewrite H4. reflexivity.
  - exact H1.
  - exact H2.
  - exact H3.
Qed.

Lemma baseUrl_normalisation_example :
  req_url (openai_request Examples.goal
             (Examples.openai_settings (js "sk-1") (Some (js "https://x.y/v1//")))
             Examples.today)
  = js "https://x.y/v1//chat/completions"
  /\ req_url (models_request
                (Examples.openai_settings (js "sk-1") (Some (js "https://x.y/v1//"))))
     = js "https://x.y/v1//models".
Proof.
  destruct (baseUrl_normalisation
              (Examples.mock (inl Examples.unreachable) (inl Examples.unreachable) None)
              Examples.goal
              (Examples.openai_settings (js "sk-1") (Some (js "https://x.y/v1//")))
              Examples.today
              (Examples.modal
                 (Examples.openai_settings (js "sk-1") (Some (js "https://x.y/v1//"))))
              ltac:(vm_compute; discriminate) eq_refl)
    as [base [_ [H2 [_ [H4 [H5 _]]]]]].
  rewrite H2, H4.
  rewrite (H5 (js "https://x.y/v1/") ltac:(vm_compute; reflexivity)).
  split; vm_compute; reflexivity.
Defined.

(** *** The provider switch *)

(** A switch to any provider other than gemini keeps the key and the
    time zone, leaves a model that is no Gemini model and a base URL that
    is not empty, and forgets the fetched models and the status. *)
Theorem provider_change_to_other (p : jsstring) (s : ModalState) :
  p <> js "gemini" ->
  provider (formData (handleProviderChange p s)) = p
  /\ apiKey (formData (handleProviderChange p s)) = apiKey (formData s)
  /\ timezone (formData (handleProviderChange p s)) = timezone (formData s)
  /\ startsWith (model (formData (handleProviderChange p s))) (js "gemini") = false
  /\ falsy_opt_string (baseUrl (formData (handleProviderChange p s))) = false
  /\ fetchedModels (handleProviderChange p s) = []
  /\ connectionStatus (handleProviderChange p s) = idle
  /\ statusMessage (handleProviderChange p s) = [].
Proof.
  intros Hp. unfold handleProviderChange, streq.
  destruct (list_eq_dec N.eq_dec p (js "gemini")) as [E|_]; [contradiction|].
  cbn [formData setStatusMessage setConnectionStatus setFetchedModels setFormData
       provider apiKey timezone model baseUrl fetchedModels connectionStatus
       statusMessage].
  repeat split.
  - destruct (startsWith (model (formData s)) (js "gemini")) eqn:Hm;
      [vm_compute; reflexivity | exact Hm].
  - destruct (falsy_opt_string (baseUrl (formData s))) eqn:Hb;
      [vm_compute; reflexivity | exact Hb].
Qed.

(** Going back to gemini forgets what any switch before it did. *)
Theorem provider_change_gemini_absorbs (p : jsstring) (s : ModalState) :
  handleProviderChange (js "gemini") (handleProviderChange p s)
  = handleProviderChange (js "gemini") s.
Proof.
  unfold handleProviderChange at 1 3.
  change (streq (js "gemini") (js "gemini")) with true. cbv iota beta.
  unfold handleProviderChange.
  destruct (streq p (js "gemini")); reflexivity.
Qed.

(** The drop-down is never empty, and after a switch to gemini, or a
    switch to openai away from a Gemini model, the select shows the
    model the switch has set. *)
Theorem dropdown_and_switch (s : ModalState) :
  dropdownOptions s <> []
  /\ select_value (handleProviderChange (js "gemini") s) = js "gemini-2.5-flash"
  /\ (startsWith (model (formData s)) (js "gemini") = true ->
      select_value (handleProviderChange (js "openai") s) = js "gpt-4o-mini").
Proof.
  split; [|split].
  - unfold dropdownOptions.
    destruct (isOpenAI s); destruct (fetchedModels s); cbn; discriminate.
  - unfold handleProviderChange.
    change (streq (js "gemini") (js "gemini")) with true. cbv iota beta.
    vm_compute. reflexivity.
  - intros Hm. unfold handleProviderChange.
    change (streq (js "openai") (js "gemini")) with false. cbv iota beta.
    rewrite Hm. vm_compute. reflexivity.
Qed.

Lemma provider_change_to_other_example :
  falsy_opt_string
    (baseUrl (formData (handleProviderChange (js "openai")
                          (Examples.modal (Examples.gemini_settings (js "key"))))))
  = false.
Proof.
  refine (proj1 (proj2 (proj2 (proj2 (proj2 (provider_change_to_other (js "openai")
            (Examples.modal (Examples.gemini_settings (js "key"))) _)))))).
  vm_compute; discriminate.
Defined.

Lemma dropdown_and_switch_example :
  select_value (handleProviderChange (js "openai")
                  (Examples.modal (Examples.gemini_settings (js "key"))))
  = js "gpt-4o-mini".
Proof.
  refine (proj2 (proj2 (dropdown_and_switch
            (Examples.modal (Examples.gemini_settings (js "key"))))) _).
  vm_compute; reflexivity.
Defined.

(* ================================================================== *)
(** ** Properties of the prompt builder and of the generation handler *)
(* ================================================================== *)

Lemma includes_app_r (p s x : jsstring) :
  includes s x = true -> includes (p ++ s) x = true.
Proof.
  intros H. induction p as [|c p IH]; simpl; [assumption|].
  rewrite IH. apply orb_true_r.
Qed.

Lemma includes_app_l (s q x : jsstring) :
  includes s x = true -> includes (s ++ q) x = true.
Proof.
  revert x. induction s as [|c s IH]; intros x H.
  - simpl in H. rewrite orb_false_r in H. destruct x; [|discriminate].
    apply includes_startsWith. reflexivity.
  - simpl in H. apply orb_prop in H as [H|H].
    + apply includes_startsWith.
      destruct (startsWith_prefix _ _ H) as [r E]. rewrite E, <- app_assoc.
      apply startsWith_app.
    + simpl. rewrite (IH x H). apply orb_true_r.
Qed.

Lemma includes_prefix (x post : jsstring) : includes (x ++ post) x = true.
Proof. apply includes_startsWith, startsWith_app. Qed.

Ltac find_part :=
  repeat match goal with
    | |- includes (?a ++ _) ?x = true =>
        first [constr_eq a x; apply includes_prefix | apply includes_app_r]
    end.

(** Both texts sent to the backend carry the date string as it is, the
    user prompt carries the goal text as it is, and the system
    instruction built for the OpenAI backends carries the demand for a
    JSON object. *)
Theorem prompts_carry_inputs (dateStr goalText : jsstring) (isOpenAI : bool) :
  includes (prompt (buildSystemAndUserPrompt dateStr goalText isOpenAI)) goalText = true
  /\ includes (prompt (buildSystemAndUserPrompt dateStr goalText isOpenAI)) dateStr = true
  /\ includes (systemInstruction (buildSystemAndUserPrompt dateStr goalText isOpenAI))
       dateStr = true
  /\ includes (systemInstruction (buildSystemAndUserPrompt dateStr goalText true))
       IMPORTANT_JSON = true.
Proof.
  split; [|split; [|split]].
  - destruct isOpenAI; cbn [buildSystemAndUserPrompt prompt];
      [apply includes_app_l|]; find_part.
  - destruct isOpenAI; cbn [buildSystemAndUserPrompt prompt];
      [apply includes_app_l|]; find_part.
  - cbn [buildSystemAndUserPrompt systemInstruction]. find_part.
  - cbn [buildSystemAndUserPrompt systemInstruction]. find_part.
Qed.

Lemma trim_all_ws (w : jsstring) : forallb isWhiteSpace w = true -> trim w = [].
Proof. intros H. unfold trim. now rewrite (trimStart_all_ws w H). Qed.


Section Handler.

Variable W : World.
Variable Date_now_reading : nat -> Z.


(** What [report] shows for an error whose message speaks of the key or
    of the status 401. *)
Lemma report_auth (e : exn) (s : AppState) :
  includes (exn_message e) (js "API Key") = true
  \/ includes (exn_message e) (js "401") = true ->
  report e s = setIsSettingsOpen true (setError (Some AUTH_FAILED) s).
Proof.
  intros H. unfold report.
  assert (Hne : falsy_string (exn_message e) = false).
  { destruct (exn_message e); [|reflexivity].
    destruct H as [H|H]; vm_compute in H; discriminate. }
  rewrite Hne.
  destruct H as [H|H]; rewrite H; [reflexivity|].
  rewrite orb_true_r. reflexivity.
Qed.

Lemma map_tasks_texts (dayIndex taskIndex k : nat) (texts : list json) :
  map task_text (map_tasks Date_now_reading dayIndex taskIndex k texts) = texts
  /\ forallb (fun t => negb (completed t))
       (map_tasks Date_now_reading dayIndex taskIndex k texts) = true.
Proof.
  revert taskIndex k; induction texts as [|x r IH]; intros taskIndex k.
  - split; reflexivity.
  - destruct (IH (S taskIndex) (S k)) as [E F].
    cbn [map_tasks map forallb task_text completed negb andb].
    rewrite E, F. split; reflexivity.
Qed.

Lemma map_days_conformant (schedule : list json) (dayIndex k : nat) :
  forallb is_ApiDayPlan schedule = true ->
  exists ds,
    map_days W Date_now_reading dayIndex k schedule = inr ds
    /\ Forall2 day_matches schedule ds.
Proof.
  revert dayIndex k; induction schedule as [|day r IH]; intros dayIndex k H.
  - exists []. split; [reflexivity | constructor].
  - cbn [forallb] in H. apply andb_prop in H as [Hd Hr].
    destruct (IH (S dayIndex)
                (k + List.length
                       (match prop day (js "tasks") with
                        | Some (JArray texts) => texts
                        | _ => []
                        end))%nat Hr) as [ds [E F]].
    destruct day as [| | | | |ms]; try discriminate Hd.
    unfold is_ApiDayPlan in Hd.
    apply andb_prop in Hd as [Hd _]. apply andb_prop in Hd as [_ Ht].
    unfold is_string_array in Ht.
    destruct (prop (JObject ms) (js "tasks")) as [[| | | |texts|]|] eqn:Et;
      try discriminate Ht.
    cbn [map_days]. rewrite Et, E.
    eexists. split; [reflexivity|]. constructor; [|exact F].
    destruct (map_tasks_texts dayIndex 0 k texts) as [E1 E2].
    unfold day_matches. cbn [dayName contentIdeas tasks].
    rewrite E1, E2, Et. repeat split.
Qed.


(** A goal of white space only: the handler does nothing at all. *)
Theorem blank_goal_does_nothing (s : AppState) :
  forallb isWhiteSpace (goalInput s) = true ->
  handleGenerate W Date_now_reading s = ([], s).
Proof.
  intros H. unfold handleGenerate. rewrite (trim_all_ws _ H). reflexivity.
Qed.


(** A response of the shape of [ApiWeeklyPlanResponse] always becomes
    the plan: one day per entry of the schedule, each with the name, the
    ideas and the task texts of its entry, in order and unticked. *)
Theorem conformant_response_becomes_plan
    (s : AppState) (t : list event) (v : json) (schedule : list json) :
  trim (goalInput s) <> [] ->
  generateWeeklyPlan W (goalInput s) (settings s) = (t, inr v) ->
  is_ApiWeeklyPlanResponse v = true ->
  prop v (js "schedule") = Some (JArray schedule) ->
  exists p,
    plan (snd (handleGenerate W Date_now_reading s)) = Some p
    /\ refinedGoal p = prop v (js "refinedGoal")
    /\ Forall2 day_matches schedule (days p)
    /\ app_error (snd (handleGenerate W Date_now_reading s)) = None.
Proof.
  intros Hg Hgen Hv Hs. unfold handleGenerate.
  rewrite (falsy_string_nonempty _ Hg).
  cbn [goalInput settings setError setAppIsLoading]. rewrite Hgen.
  destruct v as [| | | | |ms]; try discriminate Hv.
  unfold is_ApiWeeklyPlanResponse in Hv. apply andb_prop in Hv as [_ Hv].
  rewrite Hs in Hv.
  destruct (map_days_conformant schedule 0 2 Hv) as [ds [E F]].
  unfold newPlan. rewrite Hs, E.
  eexists. cbn [snd plan app_error setAppIsLoading setGoalInput setPlan setError
                refinedGoal days].
  repeat split. exact F.
Qed.


(** A missing key sends the user to the settings: with no key to use,
    whichever the provider, the handler shows the authentication message
    and opens the settings, and nothing has been sent. *)
Theorem missing_key_opens_settings (s : AppState) (formatter : Z -> jsstring) :
  trim (goalInput s) <> [] ->
  Intl_DateTimeFormat W (timezone (settings s)) = Some formatter ->
  apiKey (settings s) = [] ->
  provider (settings s) = js "openai"
  \/ falsy_opt_string (process_env_API_KEY W) = true ->
  app_error (snd (handleGenerate W Date_now_reading s)) = Some AUTH_FAILED
  /\ isSettingsOpen (snd (handleGenerate W Date_now_reading s)) = true
  /\ network_calls (fst (handleGenerate W Date_now_reading s)) = [].
Proof.
  intros Hg Hf Hk Hp. unfold handleGenerate.
  rewrite (falsy_string_nonempty _ Hg).
  cbn [goalInput settings setError setAppIsLoading].
  unfold generateWeeklyPlan. rewrite Hf. unfold streq.
  destruct (list_eq_dec N.eq_dec (provider (settings s)) (js "openai")) as [Eo|Hno].
  - rewrite (generateWithOpenAI_no_key W _ _ _ Hk). unfold throw.
    rewrite report_auth by (left; vm_compute; reflexivity).
    repeat split.
  - destruct Hp as [Hp|Hp]; [contradiction|].
    rewrite (generateWithGemini_no_key W _ _ _ Hk Hp). unfold throw.
    rewrite report_auth by (left; vm_compute; reflexivity).
    repeat split.
Qed.

(** So does a 401 from the OpenAI-compatible endpoint, after the one
    request. *)
Theorem status_401_opens_settings
    (s : AppState) (formatter : Z -> jsstring) (response : Response) :
  trim (goalInput s) <> [] ->
  Intl_DateTimeFormat W (timezone (settings s)) = Some formatter ->
  provider (settings s) = js "openai" ->
  apiKey (settings s) <> [] ->
  fetch W (openai_request (goalInput s) (settings s) (formatter (Date_now W)))
  = inr response ->
  status response = 401%N ->
  app_error (snd (handleGenerate W Date_now_reading s)) = Some AUTH_FAILED
  /\ isSettingsOpen (snd (handleGenerate W Date_now_reading s)) = true
  /\ plan (snd (handleGenerate W Date_now_reading s)) = plan s
  /\ network_calls (fst (handleGenerate W Date_now_reading s))
     = [EvFetch (openai_request (goalInput s) (settings s) (formatter (Date_now W)))].
Proof.
  intros Hg Hf Hp Hk Hr Hst. unfold handleGenerate.
  rewrite (falsy_string_nonempty _ Hg).
  cbn [goalInput settings setError setAppIsLoading].
  unfold generateWeeklyPlan. rewrite Hf, Hp.
  change (streq (js "openai") (js "openai")) with true. cbv iota.
  assert (Hok : ok response = false) by (unfold ok; rewrite Hst; reflexivity).
  rewrite (generateWithOpenAI_not_ok W _ _ _ response Hk Hr Hok).
  rewrite report_auth.
  - cbn [fst snd app_error isSettingsOpen plan setAppIsLoading setIsSettingsOpen
         setError app network_calls filter is_network].
    repeat split.
  - right. cbn [exn_message Error]. unfold request_failed_message.
    rewrite Hst. change (of_N 401) with (js "401").
    apply includes_app.
Qed.

End Handler.

Lemma blank_goal_example :
  handleGenerate (Examples.mock (inl Examples.unreachable) (inl Examples.unreachable) None)
    Examples.ticking (Examples.app (js "   ") (Examples.gemini_settings (js "key")))
  = ([], Examples.app (js "   ") (Examples.gemini_settings (js "key"))).
Proof.
  apply (blank_goal_does_nothing
           (Examples.mock (inl Examples.unreachable) (inl Examples.unreachable) None)
           Examples.ticking
           (Examples.app (js "   ") (Examples.gemini_settings (js "key")))).
  vm_compute; reflexivity.
Defined.


Lemma conformant_response_example :
  exists p,
    plan (snd (handleGenerate
                 (Examples.mock (inl Examples.unreachable)
                    (inr (Some Examples.plan_text)) None)
                 Examples.ticking
                 (Examples.app Examples.goal (Examples.gemini_settings (js "key")))))
    = Some p
    /\ List.length (days p) = 1%nat.
Proof.
  destruct (conformant_response_becomes_plan
              (Examples.mock (inl Examples.unreachable)
                 (inr (Some Examples.plan_text)) None)
              Examples.ticking
              (Examples.app Examples.goal (Examples.gemini_settings (js "key")))
              [EvGenerateContent
                 (gemini_request Examples.goal (Examples.gemini_settings (js "key"))
                    Examples.today (js "key"))]
              Examples.plan_value
              [JObject [ (js "dayName", JString (js "周三"));
                         (js "tasks", JArray [JString (js "Draft article 3")]);
                         (js "contentIdeas", JArray [JString (js "Topic A")]) ]]
              ltac:(vm_compute; discriminate)
              ltac:(vm_compute; reflexivity)
              ltac:(vm_compute; reflexivity)
              ltac:(vm_compute; reflexivity))
    as [p [Hp [_ [Hd _]]]].
  exists p. split; [exact Hp|].
  apply Forall2_length in Hd. symmetry. exact Hd.
Defined.


Lemma missing_key_example :
  isSettingsOpen
    (snd (handleGenerate
            (Examples.mock (inl Examples.unreachable) (inl Examples.unreachable) None)
            Examples.ticking
            (Examples.app Examples.goal (Examples.gemini_settings []))))
  = true.
Proof.
  refine (proj1 (proj2 (missing_key_opens_settings
            (Examples.mock (inl Examples.unreachable) (inl Examples.unreachable) None)
            Examples.ticking
            (Examples.app Examples.goal (Examples.gemini_settings []))
            (fun _ => js "2025年1月1日星期三") _ _ _ _)));
    [vm_compute; discriminate | reflexivity | reflexivity | right; reflexivity].
Defined.

Lemma status_401_opens_settings_example :
  isSettingsOpen
    (snd (handleGenerate
            (Examples.mock (inr (mkResponse 401 (js "Unauthorized") (js "bad key")))
               (inl Examples.unreachable) None)
            Examples.ticking
            (Examples.app Examples.goal (Examples.openai_settings (js "sk-1") None))))
  = true.
Proof.
  refine (proj1 (proj2 (status_401_opens_settings
            (Examples.mock (inr (mkResponse 401 (js "Unauthorized") (js "bad key")))
               (inl Examples.unreachable) None)
            Examples.ticking
            (Examples.app Examples.goal (Examples.openai_settings (js "sk-1") None))
            (fun _ => js "2025年1月1日星期三")
            (mkResponse 401 (js "Unauthorized") (js "bad key")) _ _ _ _ _ _)));
    [vm_compute; discriminate | reflexivity | reflexivity
    | vm_compute; discriminate | reflexivity | reflexivity].
Defined.

(* ================================================================== *)
(** ** The ids of the tasks *)
(* ================================================================== *)

Lemma js_String (a : ascii) (s : string) :
  (N_of_ascii a < 128)%N -> js (String a s) = N_of_ascii a :: js s.
Proof.
  intros H. unfold js. cbn [list_ascii_of_string map utf8_points].
  apply N.ltb_lt in H. rewrite H. cbn [flat_map]. unfold utf16_units at 1.
  assert (E : (N_of_ascii a <? 65536)%N = true).
  { apply N.ltb_lt. apply N.ltb_lt in H. lia. }
  rewrite E. reflexivity.
Qed.

Ltac js_digits :=
  repeat match goal with
    | |- context [js (String ?a ?s)] =>
        rewrite (js_String a s) by (vm_compute; reflexivity)
    | H : context [js (String ?a ?s)] |- _ =>
        rewrite (js_String a s) in H by (vm_compute; reflexivity)
    end.

Lemma js_decimal_inj (d d' : Decimal.uint) :
  js (NilEmpty.string_of_uint d) = js (NilEmpty.string_of_uint d') -> d = d'.
Proof.
  revert d'; induction d; intros d' H; destruct d';
    cbn [NilEmpty.string_of_uint] in H; js_digits;
    change (js "") with (@nil N) in H;
    try reflexivity; try discriminate H;
    try (exfalso; apply (f_equal (hd 0%N)) in H; vm_compute in H;
         discriminate H);
    f_equal; apply IHd; apply (f_equal (@tl N)) in H; exact H.
Qed.

Lemma js_decimal_no_dash (d : Decimal.uint) :
  ~ In 45%N (js (NilEmpty.string_of_uint d)).
Proof.
  induction d; cbn [NilEmpty.string_of_uint]; js_digits;
    [intros [] | ..];
    intros [H|H]; auto; vm_compute in H; discriminate H.
Qed.

Lemma of_N_inj (n m : N) : of_N n = of_N m -> n = m.
Proof.
  unfold of_N. intros H. apply js_decimal_inj in H.
  rewrite <- (Unsigned.of_to n), <- (Unsigned.of_to m). now f_equal.
Qed.

Lemma of_N_no_dash (n : N) : ~ In 45%N (of_N n).
Proof. apply js_decimal_no_dash. Qed.

(** Two texts that agree and each start with a run without a dash,
    followed by a dash, have the same run. *)
Lemma split_at_dash (a b x y : jsstring) :
  ~ In 45%N a -> ~ In 45%N b ->
  a ++ 45%N :: x = b ++ 45%N :: y -> a = b /\ x = y.
Proof.
  revert b; induction a as [|c a IH]; intros [|d b] Ha Hb H.
  - inversion H. now split.
  - exfalso. inversion H. subst d. apply Hb. now left.
  - exfalso. inversion H. subst c. apply Ha. now left.
  - inversion H. subst d.
    destruct (IH b) as [-> ->]; auto.
    + intros Hin. apply Ha. now right.
    + intros Hin. apply Hb. now right.
Qed.

(** The id of a task, as [map_tasks] writes it. *)
Lemma task_id_inj (i j i' j' : nat) (t t' : jsstring) :
  js "day-" ++ of_N (N.of_nat i) ++ js "-task-" ++ of_N (N.of_nat j) ++ js "-" ++ t
  = js "day-" ++ of_N (N.of_nat i') ++ js "-task-" ++ of_N (N.of_nat j') ++ js "-" ++ t' ->
  i = i' /\ j = j'.
Proof.
  intros H. apply app_inv_head in H.
  change (js "-task-") with (45%N :: js "task-") in H.
  change (js "-") with [45%N] in H.
  rewrite <- !app_comm_cons in H.
  apply split_at_dash in H as [Hi H]; try apply of_N_no_dash.
  apply app_inv_head in H. cbn [app] in H.
  apply split_at_dash in H as [Hj _]; try apply of_N_no_dash.
  apply of_N_inj in Hi, Hj. split; lia.
Qed.

Section TaskIds.

Variable W : World.
Variable Date_now_reading : nat -> Z.

Lemma In_map_tasks (dayIndex taskIndex k : nat) (texts : list json) (x : jsstring) :
  In x (map task_id (map_tasks Date_now_reading dayIndex taskIndex k texts)) ->
  exists j t,
    (taskIndex <= j)%nat
    /\ x = js "day-" ++ of_N (N.of_nat dayIndex) ++ js "-task-"
           ++ of_N (N.of_nat j) ++ js "-" ++ t.
Proof.
  revert taskIndex k; induction texts as [|y r IH]; intros taskIndex k H.
  - destruct H.
  - cbn [map_tasks map task_id] in H. destruct H as [H|H].
    + exists taskIndex, (of_Z (Date_now_reading k)). split; [lia | now symmetry].
    + destruct (IH _ _ H) as [j [t [Hj E]]]. exists j, t. split; [lia | exact E].
Qed.

Lemma NoDup_map_tasks (dayIndex taskIndex k : nat) (texts : list json) :
  NoDup (map task_id (map_tasks Date_now_reading dayIndex taskIndex k texts)).
Proof.
  revert taskIndex k; induction texts as [|y r IH]; intros taskIndex k.
  - constructor.
  - cbn [map_tasks map task_id]. constructor; [|apply IH].
    intros H. destruct (In_map_tasks _ _ _ _ _ H) as [j [t [Hj E]]].
    apply task_id_inj in E as [_ E]. lia.
Qed.

Lemma In_map_days (schedule : list json) (dayIndex k : nat)
    (ds : list DayPlan) (x : jsstring) :
  map_days W Date_now_reading dayIndex k schedule = inr ds ->
  In x (flat_map (fun d => map task_id (tasks d)) ds) ->
  exists i j t,
    (dayIndex <= i)%nat
    /\ x = js "day-" ++ of_N (N.of_nat i) ++ js "-task-"
           ++ of_N (N.of_nat j) ++ js "-" ++ t.
Proof.
  revert dayIndex k ds; induction schedule as [|day r IH]; intros dayIndex k ds H Hin.
  - inversion H; subst. destruct Hin.
  - cbn [map_days] in H.
    destruct day; try discriminate H;
      match type of H with
      | context [prop ?v ?n] =>
          destruct (prop v n) as [[| | | |texts|]|]; try discriminate H
      end;
      destruct (map_days W Date_now_reading (S dayIndex) (k + List.length texts) r)
        as [e|ds'] eqn:E; inversion H; subst; clear H;
      cbn [flat_map tasks] in Hin; apply in_app_or in Hin as [Hin|Hin];
      try (destruct (In_map_tasks _ _ _ _ _ Hin) as [j [t [_ Ex]]];
           exists dayIndex, j, t; split; [lia | exact Ex]);
      destruct (IH _ _ _ E Hin) as [i [j [t [Hi Ex]]]];
      exists i, j, t; (split; [lia | exact Ex]).
Qed.

Lemma NoDup_map_days (schedule : list json) (dayIndex k : nat) (ds : list DayPlan) :
  map_days W Date_now_reading dayIndex k schedule = inr ds ->
  NoDup (flat_map (fun d => map task_id (tasks d)) ds).
Proof.
  revert dayIndex k ds; induction schedule as [|day r IH]; intros dayIndex k ds H.
  - inversion H; subst. constructor.
  - cbn [map_days] in H.
    destruct day; try discriminate H;
      match type of H with
      | context [prop ?v ?n] =>
          destruct (prop v n) as [[| | | |texts|]|]; try discriminate H
      end;
      destruct (map_days W Date_now_reading (S dayIndex) (k + List.length texts) r)
        as [e|ds'] eqn:E; inversion H; subst; clear H;
      cbn [flat_map tasks];
      (apply NoDup_app;
       [apply NoDup_map_tasks | exact (IH _ _ _ E) |]);
      intros x Hx Hx';
      destruct (In_map_tasks _ _ _ _ _ Hx) as [j [t [_ Ex]]];
      destruct (In_map_days _ _ _ _ _ E Hx') as [i' [j' [t' [Hi Ex']]]];
      rewrite Ex in Ex'; apply task_id_inj in Ex' as [Ei _]; lia.
Qed.

(** Whatever the response and whatever the clock reads, the tasks of a
    plan the handler builds all have different ids. *)
Theorem task_ids_are_distinct (goalInput : jsstring) (apiResponse : json)
    (p : WeeklyPlan) :
  newPlan W Date_now_reading goalInput apiResponse = inr p ->
  NoDup (all_task_ids p).
Proof.
  unfold newPlan. intros H.
  destruct apiResponse; try discriminate H;
    match type of H with
    | context [prop ?v ?n] =>
        destruct (prop v n) as [[| | | |schedule|]|]; try discriminate H
    end;
    destruct (map_days W Date_now_reading 0 2 schedule) as [e|ds] eqn:E;
    inversion H; subst; clear H;
    unfold all_task_ids; cbn [days]; exact (NoDup_map_days _ _ _ _ E).
Qed.

End TaskIds.

Lemma task_ids_example :
  exists p,
    newPlan (Examples.mock (inl Examples.unreachable) (inl Examples.unreachable) None)
      (fun _ => 0%Z) Examples.goal Examples.two_day_value = inr p
    /\ all_task_ids p
       = [js "day-0-task-0-0"; js "day-0-task-1-0"; js "day-1-task-0-0"]
    /\ NoDup (all_task_ids p).
Proof.
  eexists. split; [vm_compute; reflexivity|]. split; [vm_compute; reflexivity|].
  apply (task_ids_are_distinct
           (Examples.mock (inl Examples.unreachable) (inl Examples.unreachable) None)
           (fun _ => 0%Z) Examples.goal Examples.two_day_value).
  vm_compute; reflexivity.
Defined.
